(** * A model of [app/main.py]: a FastAPI gateway in front of Ollama

    The gateway forwards chat requests to an Ollama server and hands the
    answer back either in one piece ([/chat]) or fragment by fragment
    ([/stream]); [/models] proxies the server's tag list.

    Layout of this development:
    - Python data as the program sees it: [str] as a list of code points,
      [bytes] as a list of bytes, JSON-like values, dictionaries as
      association lists in insertion order;
    - the library calls the program relies on ([bytes.decode], [json.loads],
      [in], subscripting, [dict.get], [str.join], [Response.raise_for_status]);
    - exceptions and effects: an outcome type, and a writer over the
      events a handler produces (requests sent upstream, fragments yielded);
    - the handlers of [app/main.py], one definition per function;
    - the properties of the handlers.

    Two limits of the interpreter are part of the model, because
    [json.loads] answers them with exceptions that no clause of the program
    catches: the digit limit of integer conversion and the recursion
    depth.  What the model leaves out: memory, the chunk boundaries behind
    [iter_lines], the validation FastAPI and pydantic run before a handler
    (a handler sees parameters of the declared types), and the rendering of
    a returned value into the HTTP body.  The [except] clauses see a
    timeout as an exception of class [requests.Timeout]; [requests] raises
    one while the request is sent, and a [ConnectionError] when the read
    times out in the body. *)

From Stdlib Require Import ZArith NArith List String Ascii Bool Lia Floats.
From Stdlib Require Import Strings.Byte DecimalString.
Import ListNotations.

Set Warnings "-inexact-float,-register-all".
Local Open Scope Z_scope.
Local Open Scope list_scope.

(** ** Python [str] and [bytes] *)

(** A Python [str] is a sequence of Unicode code points. *)
Definition pystr : Type := list N.

(** A Python [bytes] object. *)
Definition bytes : Type := list byte.

(** An ASCII literal of the source, as a [str]. *)
Definition str (s : string) : pystr :=
  map Byte.to_N (list_byte_of_string s).

(** An ASCII literal as [bytes]; an apostrophe stands for the double quote
    (code 34), so that JSON text can be written down in a literal. *)
Definition dq (s : string) : bytes :=
  map (fun c => if Byte.eqb c x27 then x22 else c) (list_byte_of_string s).

Fixpoint str_eqb (a b : pystr) : bool :=
  match a, b with
  | [], [] => true
  | x :: a', y :: b' => N.eqb x y && str_eqb a' b'
  | _, _ => false
  end.

Fixpoint str_startswith (s prefix : pystr) : bool :=
  match prefix, s with
  | [], _ => true
  | p :: prefix', c :: s' => N.eqb p c && str_startswith s' prefix'
  | _ :: _, [] => false
  end.

(** [needle in hay] for two strings: substring test. *)
Fixpoint str_contains (needle hay : pystr) : bool :=
  str_startswith hay needle ||
  match hay with
  | [] => false
  | _ :: hay' => str_contains needle hay'
  end.

(** [s.rstrip("/")]: every trailing slash goes. *)
Fixpoint lstrip_slash (s : pystr) : pystr :=
  match s with
  | 47%N :: s' => lstrip_slash s'
  | _ => s
  end.

Definition rstrip_slash (s : pystr) : pystr := rev (lstrip_slash (rev s)).

(** [bytes.splitlines()]: lines end at "\n", "\r" or "\r\n"; the line ends
    are dropped and a final line end opens no empty line. *)
Fixpoint splitlines_aux (bs : bytes) (cur : bytes) : list bytes :=
  match bs with
  | [] => match cur with [] => [] | _ => [rev cur] end
  | x0d :: bs' =>
      match bs' with
      | x0a :: rest => rev cur :: splitlines_aux rest []
      | _ => rev cur :: splitlines_aux bs' []
      end
  | x0a :: bs' => rev cur :: splitlines_aux bs' []
  | c :: bs' => splitlines_aux bs' (c :: cur)
  end.

Definition splitlines (bs : bytes) : list bytes := splitlines_aux bs [].

(** ** [bytes.decode("utf-8")]

    The strict decoder: overlong forms, surrogates, code points above
    U+10FFFF and truncated sequences are errors ([None] stands for
    [UnicodeDecodeError]). *)

Definition is_cont (b : byte) : bool :=
  let n := Byte.to_N b in (128 <=? n)%N && (n <=? 191)%N.

Definition cont_bits (b : byte) : N := (Byte.to_N b - 128)%N.

Fixpoint utf8_decode (bs : bytes) : option pystr :=
  match bs with
  | [] => Some []
  | b0 :: r0 =>
      let n0 := Byte.to_N b0 in
      if (n0 <? 128)%N then option_map (cons n0) (utf8_decode r0)
      else if (194 <=? n0)%N && (n0 <=? 223)%N then
        match r0 with
        | b1 :: r1 =>
            if is_cont b1
            then option_map (cons ((n0 - 192) * 64 + cont_bits b1)%N) (utf8_decode r1)
            else None
        | _ => None
        end
      else if (224 <=? n0)%N && (n0 <=? 239)%N then
        match r0 with
        | b1 :: b2 :: r2 =>
            let c := ((n0 - 224) * 4096 + cont_bits b1 * 64 + cont_bits b2)%N in
            if is_cont b1 && is_cont b2 && (2048 <=? c)%N
               && negb ((55296 <=? c)%N && (c <=? 57343)%N)
            then option_map (cons c) (utf8_decode r2)
            else None
        | _ => None
        end
      else if (240 <=? n0)%N && (n0 <=? 244)%N then
        match r0 with
        | b1 :: b2 :: b3 :: r3 =>
            let c := ((n0 - 240) * 262144 + cont_bits b1 * 4096
                      + cont_bits b2 * 64 + cont_bits b3)%N in
            if is_cont b1 && is_cont b2 && is_cont b3
               && (65536 <=? c)%N && (c <=? 1114111)%N
            then option_map (cons c) (utf8_decode r3)
            else None
        | _ => None
        end
      else None
  end.

(** ** Python values

    What [json.loads] can return and what the handlers build: [None],
    booleans, integers (unbounded), floats (binary64), strings, lists and
    dictionaries.  A dictionary is an association list in insertion
    order. *)

Inductive value : Type :=
| VNone
| VBool (b : bool)
| VInt (z : Z)
| VFloat (f : float)
| VStr (s : pystr)
| VList (l : list value)
| VDict (d : list (pystr * value)).

Definition dict : Type := list (pystr * value).

(** [d.get(k)] at the level of the association list. *)
Fixpoint dict_lookup (d : dict) (k : pystr) : option value :=
  match d with
  | [] => None
  | (k', v) :: d' => if str_eqb k' k then Some v else dict_lookup d' k
  end.

(** [d[k] = v]: an existing key keeps its place and takes the new value, a
    new key goes last. *)
Fixpoint dict_set (d : dict) (k : pystr) (v : value) : dict :=
  match d with
  | [] => [(k, v)]
  | (k', v') :: d' =>
      if str_eqb k' k then (k', v) :: d' else (k', v') :: dict_set d' k v
  end.

Definition dict_keys (d : dict) : list pystr := map fst d.

(** ** [json.loads]

    The decoder reads the text once, from left to right, as the scanner of
    CPython does: a lexer cuts strings, structural characters and words, and
    every token goes to a pushdown recogniser at once, so that the first
    fault in the order of the text decides how the call ends.  A word is
    only started, and a string only opened, where the recogniser expects
    one.  Every scalar that Python accepts is delimited by white space, a
    structural character or a quote, so cutting words at those places
    accepts the same texts. *)

(** The limits of the interpreter that [json.loads] can run into: the
    number of digits a string may have to become an [int]
    ([sys.get_int_max_str_digits()], 4300 unless configured, 0 for no
    limit), and the number of nested containers the recursion limit leaves
    room for where the call is made. *)
Record interpreter : Type := {
  int_max_str_digits : nat;
  json_max_depth : nat
}.

(** How a text is refused: by its syntax ([json.JSONDecodeError]), by the
    digit limit ([ValueError]) or by the recursion limit
    ([RecursionError]). *)
Inductive json_error : Type :=
| SyntaxFault
| DigitLimit
| DepthLimit.

Inductive parsed (A : Type) : Type :=
| Parsed (a : A)
| Rejected (e : json_error).

Arguments Parsed {A} a.
Arguments Rejected {A} e.

(** *** Numbers *)

Definition is_digit (c : N) : bool := (48 <=? c)%N && (c <=? 57)%N.

Fixpoint span_digits (s : pystr) : pystr * pystr :=
  match s with
  | c :: s' =>
      if is_digit c
      then let (ds, rest) := span_digits s' in (c :: ds, rest)
      else ([], s)
  | [] => ([], [])
  end.

Definition digits_value (ds : pystr) : Z :=
  fold_left (fun acc c => 10 * acc + (Z.of_N c - 48)) ds 0.

(** [float(text)] for a decimal [m * 10 ^ e10] with [0 <= m]: the nearest
    binary64 value, ties to even.  For a negative exponent the quotient keeps
    more than 64 bits, and a sticky bit records a non-zero remainder. *)
Definition float_of_decimal (neg : bool) (m e10 : Z) : float :=
  let sgn x := if neg then - x else x in
  if m =? 0 then SF2Prim (S754_zero neg)
  else if 0 <=? e10 then
    SF2Prim (binary_normalize 53 1024 (sgn (m * 10 ^ e10)) 0 neg)
  else
    let d := 10 ^ (- e10) in
    let s := Z.max 0 (64 + Z.log2 d - Z.log2 m) in
    let q := (m * 2 ^ s) / d in
    let r := (m * 2 ^ s) mod d in
    let mant := 2 * q + (if r =? 0 then 0 else 1) in
    SF2Prim (binary_normalize 53 1024 (sgn mant) (- s - 1) neg).

(** The integer part of a number: a single "0", or a digit from 1 to 9
    and the digits behind it. *)
Definition scan_int (s : pystr) : option (pystr * pystr) :=
  match s with
  | c :: s' =>
      if (c =? 48)%N then Some ([c], s')
      else if is_digit c
      then let (ds, rest) := span_digits s' in Some (c :: ds, rest)
      else None
  | [] => None
  end.

(** The optional fraction: "." and at least one digit; a "." without a
    digit behind it is left where it is. *)
Definition scan_frac (s : pystr) : option pystr * pystr :=
  match s with
  | 46%N :: s' =>
      match span_digits s' with
      | ([], _) => (None, s)
      | (ds, rest) => (Some ds, rest)
      end
  | _ => (None, s)
  end.

(** The optional exponent: "e" or "E", an optional sign, at least one
    digit; without a digit the scanner backtracks to the "e". *)
Definition scan_exp (s : pystr) : option Z * pystr :=
  let after_e s' :=
    let '(neg, s'') :=
      match s' with
      | 43%N :: t => (false, t)
      | 45%N :: t => (true, t)
      | _ => (false, s')
      end in
    match span_digits s'' with
    | ([], _) => (None, s)
    | (ds, rest) =>
        (Some (if neg then - digits_value ds else digits_value ds), rest)
    end in
  match s with
  | 101%N :: s' => after_e s'
  | 69%N :: s' => after_e s'
  | _ => (None, s)
  end.

(** The digits of an integer literal are more than the interpreter
    converts. *)
Definition over_digit_limit (lim : interpreter) (digits : pystr) : bool :=
  Nat.ltb 0 (int_max_str_digits lim)
  && Nat.ltb (int_max_str_digits lim) (List.length digits).

(** A word read as a number.  The longest prefix that is a number is
    converted first: to a float when it has a fraction or an exponent, to an
    integer otherwise, which the digit limit can refuse; what is left of
    the word behind that prefix is a fault of syntax. *)
Definition parse_number (lim : interpreter) (w : pystr) : parsed value :=
  let '(neg, s1) :=
    match w with
    | 45%N :: t => (true, t)
    | _ => (false, w)
    end in
  match scan_int s1 with
  | None => Rejected SyntaxFault
  | Some (ip, s2) =>
      let '(fp, s3) := scan_frac s2 in
      let '(ex, s4) := scan_exp s3 in
      match fp, ex with
      | None, None =>
          if over_digit_limit lim ip then Rejected DigitLimit
          else
            match s4 with
            | [] => Parsed (VInt (if neg then - digits_value ip else digits_value ip))
            | _ :: _ => Rejected SyntaxFault
            end
      | _, _ =>
          match s4 with
          | [] =>
              let fd := match fp with Some f => f | None => [] end in
              let e := match ex with Some e => e | None => 0 end in
              Parsed (VFloat (float_of_decimal neg
                                (digits_value (ip ++ fd))
                                (e - Z.of_nat (List.length fd))))
          | _ :: _ => Rejected SyntaxFault
          end
      end
  end.

(** A word between delimiters: one of the literals, or a number. *)
Definition parse_word (lim : interpreter) (w : pystr) : parsed value :=
  if str_eqb w (str "null") then Parsed VNone
  else if str_eqb w (str "true") then Parsed (VBool true)
  else if str_eqb w (str "false") then Parsed (VBool false)
  else if str_eqb w (str "NaN") then Parsed (VFloat nan)
  else if str_eqb w (str "Infinity") then Parsed (VFloat infinity)
  else if str_eqb w (str "-Infinity") then Parsed (VFloat neg_infinity)
  else parse_number lim w.

(** *** The lexer *)

Inductive token : Type :=
| TLBrace | TRBrace | TLBracket | TRBracket | TColon | TComma
| TString (s : pystr)
| TScalar (v : value).

(** Where the lexer stands.  Accumulators are reversed.  [hi] holds a high
    surrogate read from a "\u" escape until the next character shows whether
    a low surrogate follows it. *)
Inductive lex_state : Type :=
| LIdle
| LWord (acc : pystr)
| LStr (acc : pystr) (hi : option N)
| LEsc (acc : pystr) (hi : option N)
| LHex (acc : pystr) (hi : option N) (digits : list N).

Definition is_space (c : N) : bool :=
  (c =? 32)%N || (c =? 9)%N || (c =? 10)%N || (c =? 13)%N.

Definition structural (c : N) : option token :=
  if (c =? 123)%N then Some TLBrace
  else if (c =? 125)%N then Some TRBrace
  else if (c =? 91)%N then Some TLBracket
  else if (c =? 93)%N then Some TRBracket
  else if (c =? 58)%N then Some TColon
  else if (c =? 44)%N then Some TComma
  else None.

Definition hex_digit (c : N) : option N :=
  if is_digit c then Some (c - 48)%N
  else if (97 <=? c)%N && (c <=? 102)%N then Some (c - 87)%N
  else if (65 <=? c)%N && (c <=? 70)%N then Some (c - 55)%N
  else None.

Definition is_high_surrogate (c : N) : bool := (55296 <=? c)%N && (c <=? 56319)%N.
Definition is_low_surrogate (c : N) : bool := (56320 <=? c)%N && (c <=? 57343)%N.

Definition flush (acc : pystr) (hi : option N) : pystr :=
  match hi with
  | Some h => h :: acc
  | None => acc
  end.

(** The character a one-letter escape stands for. *)
Definition simple_escape (c : N) : option N :=
  if (c =? 34)%N then Some 34%N
  else if (c =? 92)%N then Some 92%N
  else if (c =? 47)%N then Some 47%N
  else if (c =? 98)%N then Some 8%N
  else if (c =? 102)%N then Some 12%N
  else if (c =? 110)%N then Some 10%N
  else if (c =? 114)%N then Some 13%N
  else if (c =? 116)%N then Some 9%N
  else None.

(** A "\uXXXX" escape has been read as [u]. *)
Definition after_unicode (acc : pystr) (hi : option N) (u : N) : lex_state :=
  match hi with
  | Some h =>
      if is_low_surrogate u
      then LStr ((65536 + (h - 55296) * 1024 + (u - 56320))%N :: acc) None
      else if is_high_surrogate u then LStr (h :: acc) (Some u)
      else LStr (u :: h :: acc) None
  | None =>
      if is_high_surrogate u then LStr acc (Some u) else LStr (u :: acc) None
  end.

(** *** The recogniser *)

(** A container that waits for the value being read. *)
Inductive context : Type :=
| CArr (items : list value)
| CObj (d : dict) (key : pystr).

Inductive parse_state : Type :=
| SValue (stk : list context)
| SArrFirst (stk : list context)
| SArrNext (stk : list context) (items : list value)
| SObjFirst (stk : list context)
| SObjKey (stk : list context) (d : dict)
| SObjColon (stk : list context) (d : dict) (key : pystr)
| SObjNext (stk : list context) (d : dict)
| SDone (v : value).

(** A value is complete: it goes to the container on top of the stack. *)
Definition complete (stk : list context) (v : value) : parse_state :=
  match stk with
  | [] => SDone v
  | CArr items :: stk' => SArrNext stk' (v :: items)
  | CObj d key :: stk' => SObjNext stk' (dict_set d key v)
  end.

(** A value starts behind the containers [stk], all open: a container
    opens only while the recursion limit leaves room for one more. *)
Definition start_value (lim : interpreter) (stk : list context) (t : token)
    : parsed parse_state :=
  match t with
  | TScalar v => Parsed (complete stk v)
  | TString s => Parsed (complete stk (VStr s))
  | TLBracket =>
      if Nat.ltb (List.length stk) (json_max_depth lim)
      then Parsed (SArrFirst stk) else Rejected DepthLimit
  | TLBrace =>
      if Nat.ltb (List.length stk) (json_max_depth lim)
      then Parsed (SObjFirst stk) else Rejected DepthLimit
  | _ => Rejected SyntaxFault
  end.

Definition parse_step (lim : interpreter) (st : parse_state) (t : token)
    : parsed parse_state :=
  match st with
  | SValue stk => start_value lim stk t
  | SArrFirst stk =>
      match t with
      | TRBracket => Parsed (complete stk (VList []))
      | _ => start_value lim (CArr [] :: stk) t
      end
  | SArrNext stk items =>
      match t with
      | TComma => Parsed (SValue (CArr items :: stk))
      | TRBracket => Parsed (complete stk (VList (rev items)))
      | _ => Rejected SyntaxFault
      end
  | SObjFirst stk =>
      match t with
      | TRBrace => Parsed (complete stk (VDict []))
      | TString k => Parsed (SObjColon stk [] k)
      | _ => Rejected SyntaxFault
      end
  | SObjKey stk d =>
      match t with
      | TString k => Parsed (SObjColon stk d k)
      | _ => Rejected SyntaxFault
      end
  | SObjColon stk d k =>
      match t with
      | TColon => Parsed (SValue (CObj d k :: stk))
      | _ => Rejected SyntaxFault
      end
  | SObjNext stk d =>
      match t with
      | TComma => Parsed (SObjKey stk d)
      | TRBrace => Parsed (complete stk (VDict d))
      | _ => Rejected SyntaxFault
      end
  | SDone _ => Rejected SyntaxFault
  end.

(** Where a word may start: where a value is expected. *)
Definition expects_value (st : parse_state) : bool :=
  match st with
  | SValue _ | SArrFirst _ => true
  | _ => false
  end.

(** Where a string may open: where a value or a key is expected. *)
Definition expects_string (st : parse_state) : bool :=
  match st with
  | SValue _ | SArrFirst _ | SObjFirst _ | SObjKey _ _ => true
  | _ => false
  end.

(** *** The scanner *)

(** The end of a word: its value goes to the recogniser. *)
Definition close_word (lim : interpreter) (acc : pystr) (st : parse_state)
    : parsed parse_state :=
  match parse_word lim (rev acc) with
  | Parsed v => parse_step lim st (TScalar v)
  | Rejected e => Rejected e
  end.

(** One character outside a string and outside a word. *)
Definition scan_idle (lim : interpreter) (c : N) (st : parse_state)
    : parsed (lex_state * parse_state) :=
  if is_space c then Parsed (LIdle, st)
  else if (c =? 34)%N then
    if expects_string st then Parsed (LStr [] None, st) else Rejected SyntaxFault
  else
    match structural c with
    | Some t =>
        match parse_step lim st t with
        | Parsed st' => Parsed (LIdle, st')
        | Rejected e => Rejected e
        end
    | None =>
        if expects_value st then Parsed (LWord [c], st) else Rejected SyntaxFault
    end.

(** The scanner proper, over the rest [s] of the text. *)
Fixpoint scan (lim : interpreter) (s : pystr) (lx : lex_state) (st : parse_state)
    : parsed value :=
  match s with
  | [] =>
      let finish st' :=
        match st' with
        | SDone v => Parsed v
        | _ => Rejected SyntaxFault
        end in
      match lx with
      | LIdle => finish st
      | LWord acc =>
          match close_word lim acc st with
          | Parsed st' => finish st'
          | Rejected e => Rejected e
          end
      | _ => Rejected SyntaxFault
      end
  | c :: s' =>
      match lx with
      | LIdle =>
          match scan_idle lim c st with
          | Parsed (lx', st') => scan lim s' lx' st'
          | Rejected e => Rejected e
          end
      | LWord acc =>
          if is_space c || (c =? 34)%N
             || match structural c with Some _ => true | None => false end
          then match close_word lim acc st with
               | Parsed st' =>
                   match scan_idle lim c st' with
                   | Parsed (lx', st'') => scan lim s' lx' st''
                   | Rejected e => Rejected e
                   end
               | Rejected e => Rejected e
               end
          else scan lim s' (LWord (c :: acc)) st
      | LStr acc hi =>
          if (c =? 34)%N then
            match parse_step lim st (TString (rev (flush acc hi))) with
            | Parsed st' => scan lim s' LIdle st'
            | Rejected e => Rejected e
            end
          else if (c =? 92)%N then scan lim s' (LEsc acc hi) st
          else if (c <? 32)%N then Rejected SyntaxFault
          else scan lim s' (LStr (c :: flush acc hi) None) st
      | LEsc acc hi =>
          if (c =? 117)%N then scan lim s' (LHex acc hi []) st
          else match simple_escape c with
               | Some e => scan lim s' (LStr (e :: flush acc hi) None) st
               | None => Rejected SyntaxFault
               end
      | LHex acc hi ds =>
          match hex_digit c with
          | None => Rejected SyntaxFault
          | Some d =>
              match ds with
              | [d2; d1; d0] =>
                  match after_unicode acc hi (d0 * 4096 + d1 * 256 + d2 * 16 + d)%N with
                  | lx' => scan lim s' lx' st
                  end
              | _ => scan lim s' (LHex acc hi (d :: ds)) st
              end
          end
      end
  end.

(** The decoder on a [str]. *)
Definition json_parse (lim : interpreter) (s : pystr) : parsed value :=
  scan lim s LIdle (SValue []).

(** ** Exceptions and effects *)

(** The classes of [requests.exceptions] a call can raise.  [ConnectTimeout]
    and [ReadTimeout] are the subclasses of [requests.Timeout]; every class
    here is a subclass of [requests.RequestException]. *)
Inductive requests_class : Type :=
| ConnectTimeout
| ReadTimeout
| ConnectionError
| HTTPError
| ChunkedEncodingError
| RequestsJSONDecodeError
| OtherRequestException.

(** The exceptions of the model.  [HTTPException] is FastAPI's.
    [ValueError] stands for an instance of that class itself, which an
    [except json.JSONDecodeError] clause does not catch. *)
Inductive exn : Type :=
| RequestException (cls : requests_class) (msg : pystr)
| JSONDecodeError
| UnicodeDecodeError
| TypeError
| AttributeError
| KeyError
| ValueError
| RecursionError
| HTTPException (status_code : Z) (detail : pystr).

(** [isinstance(e, requests.Timeout)] for a requests exception class. *)
Definition is_Timeout (cls : requests_class) : bool :=
  match cls with
  | ConnectTimeout | ReadTimeout => true
  | _ => false
  end.

Inductive outcome (A : Type) : Type :=
| Ok (a : A)
| Raise (e : exn).

Arguments Ok {A} a.
Arguments Raise {A} e.

(** A call to the upstream server, with the arguments the program passes. *)
Inductive call : Type :=
| GET (url : pystr) (timeout : Z)
| POST (url : pystr) (json : value) (stream : bool) (timeout : Z * Z).

(** What a handler does besides returning: it sends requests upstream, and
    a generator yields values. *)
Inductive event : Type :=
| Requested (c : call)
| Yielded (v : value).

(** A computation: the events it produced, in order, and how it ended. *)
Definition M (A : Type) : Type := list event * outcome A.

Definition ret {A : Type} (a : A) : M A := ([], Ok a).

Definition raise {A : Type} (e : exn) : M A := ([], Raise e).

Definition lift {A : Type} (o : outcome A) : M A := ([], o).

Definition bind {A B : Type} (m : M A) (k : A -> M B) : M B :=
  match m with
  | (evs, Ok a) => let (evs', r) := k a in (evs ++ evs', r)
  | (evs, Raise e) => (evs, Raise e)
  end.

Notation "x <- m ;; k" := (bind m (fun x => k))
  (at level 61, m at next level, right associativity).
Notation "m ;;; k" := (bind m (fun _ => k))
  (at level 61, right associativity).

(** [yield v] inside a generator. *)
Definition yield (v : value) : M unit := ([Yielded v], Ok tt).

(** [try: body except ...: handler]: the handler answers [None] for an
    exception that no [except] clause matches. *)
Definition try_except {A : Type} (body : M A) (handler : exn -> option (M A)) : M A :=
  match body with
  | (evs, Ok a) => (evs, Ok a)
  | (evs, Raise e) =>
      match handler e with
      | Some h => let (evs', r) := h in (evs ++ evs', r)
      | None => (evs, Raise e)
      end
  end.

(** The values a generator yielded. *)
Fixpoint yielded (evs : list event) : list value :=
  match evs with
  | [] => []
  | Yielded v :: evs' => v :: yielded evs'
  | Requested _ :: evs' => yielded evs'
  end.

(** The requests a computation sent upstream. *)
Fixpoint requested (evs : list event) : list call :=
  match evs with
  | [] => []
  | Requested c :: evs' => c :: requested evs'
  | Yielded _ :: evs' => requested evs'
  end.

(** ** Operations of Python on values *)

(** Truth value testing. *)
Class Truthy (A : Type) : Type := truthy : A -> bool.

#[export] Instance Truthy_str : Truthy pystr :=
  fun s => match s with [] => false | _ :: _ => true end.

#[export] Instance Truthy_float : Truthy float :=
  fun f => negb (PrimFloat.eqb f 0%float).

#[export] Instance Truthy_int : Truthy Z :=
  fun z => negb (z =? 0).

#[export] Instance Truthy_value : Truthy value :=
  fun v =>
    match v with
    | VNone => false
    | VBool b => b
    | VInt z => truthy z
    | VFloat f => truthy f
    | VStr s => truthy s
    | VList l => match l with [] => false | _ :: _ => true end
    | VDict d => match d with [] => false | _ :: _ => true end
    end.

(** [x or d] for an optional [x]: [x] when it is neither [None] nor
    falsy, [d] otherwise. *)
Definition py_or {A : Type} `{Truthy A} (x : option A) (d : A) : A :=
  match x with
  | Some a => if truthy a then a else d
  | None => d
  end.

(** [float(x)] and [int(x)] at an argument that has the type already. *)
Definition py_float (x : float) : float := x.
Definition py_int (x : Z) : Z := x.

(** [k in obj] for a string [k]: key membership in a dictionary, element
    membership in a list, substring test in a string; the other values
    are not containers. *)
Definition py_in (k : pystr) (obj : value) : outcome bool :=
  match obj with
  | VDict d => Ok (match dict_lookup d k with Some _ => true | None => false end)
  | VList l =>
      Ok (existsb (fun x => match x with VStr s => str_eqb s k | _ => false end) l)
  | VStr s => Ok (str_contains k s)
  | VNone | VBool _ | VInt _ | VFloat _ => Raise TypeError
  end.

(** [obj[k]] for a string [k]: only a dictionary can be indexed by a
    string. *)
Definition py_getitem (obj : value) (k : pystr) : outcome value :=
  match obj with
  | VDict d =>
      match dict_lookup d k with
      | Some v => Ok v
      | None => Raise KeyError
      end
  | _ => Raise TypeError
  end.

(** [obj.get(k, default)]: a method of dictionaries only. *)
Definition py_get (obj : value) (k : pystr) (default : value) : outcome value :=
  match obj with
  | VDict d =>
      match dict_lookup d k with
      | Some v => Ok v
      | None => Ok default
      end
  | _ => Raise AttributeError
  end.

(** The items a [for] sees: the elements of a list, the keys of a
    dictionary, the characters of a string. *)
Definition py_iter (v : value) : outcome (list value) :=
  match v with
  | VList l => Ok l
  | VDict d => Ok (map (fun kv => VStr (fst kv)) d)
  | VStr s => Ok (map (fun c => VStr [c]) s)
  | VNone | VBool _ | VInt _ | VFloat _ => Raise TypeError
  end.

(** [sep.join(items)]: every item must be a string. *)
Fixpoint str_join (sep : pystr) (items : list value) : outcome pystr :=
  match items with
  | [] => Ok []
  | VStr s :: items' =>
      match items' with
      | [] => Ok s
      | _ :: _ =>
          match str_join sep items' with
          | Ok t => Ok (s ++ sep ++ t)
          | Raise e => Raise e
          end
      end
  | _ :: _ => Raise TypeError
  end.

(** [line.decode("utf-8")]. *)
Definition decode (line : bytes) : outcome pystr :=
  match utf8_decode line with
  | Some s => Ok s
  | None => Raise UnicodeDecodeError
  end.

(** [json.loads(s)] under the limits [lim] of the interpreter: a text that
    is not JSON raises [json.JSONDecodeError], an integer literal of more
    digits than the interpreter converts raises [ValueError], and containers
    nested deeper than the recursion limit allows raise [RecursionError]. *)
Definition json_loads (lim : interpreter) (s : pystr) : outcome value :=
  match json_parse lim s with
  | Parsed v => Ok v
  | Rejected SyntaxFault => Raise JSONDecodeError
  | Rejected DigitLimit => Raise ValueError
  | Rejected DepthLimit => Raise RecursionError
  end.

(** ** The upstream server as the program meets it *)

(** What [Response.iter_lines()] delivers: lines, until the body ends or the
    transport raises. *)
Inductive line_stream : Type :=
| EOF
| Line (l : bytes) (rest : line_stream)
| Broken (e : exn).

(** A stream that delivers the given lines and then ends. *)
Fixpoint stream_of (ls : list bytes) : line_stream :=
  match ls with
  | [] => EOF
  | l :: ls' => Line l (stream_of ls')
  end.

(** A stream that delivers the given lines and then raises. *)
Fixpoint broken_after (ls : list bytes) (e : exn) : line_stream :=
  match ls with
  | [] => Broken e
  | l :: ls' => Line l (broken_after ls' e)
  end.

(** A [requests.Response]: the parts of it the program reads. *)
Record Response : Type := {
  status_code : Z;
  reason : pystr;
  url : pystr;
  iter_lines : line_stream;
  json : outcome value
}.

(** The world of one request: the process environment, the limits of the
    interpreter that runs the program, and a deterministic upstream, which
    answers a call with a response or an exception. *)
Record world : Type := {
  getenv : pystr -> option pystr;
  limits : interpreter;
  upstream : call -> outcome Response
}.

(** The limits of an interpreter as installed: 4300 digits, and room for a
    thousand nested containers. *)
Definition default_limits : interpreter :=
  {| int_max_str_digits := 4300; json_max_depth := 1000 |}.

Definition decimal (z : Z) : pystr :=
  str (NilZero.string_of_int (Z.to_int z)).

(** [r.raise_for_status()]: an [HTTPError] for the statuses 400 to 599, and
    for those only. *)
Definition raise_for_status (r : Response) : M unit :=
  let code := status_code r in
  if (400 <=? code) && (code <? 500) then
    raise (RequestException HTTPError
             (decimal code ++ str " Client Error: " ++ reason r
              ++ str " for url: " ++ url r))
  else if (500 <=? code) && (code <? 600) then
    raise (RequestException HTTPError
             (decimal code ++ str " Server Error: " ++ reason r
              ++ str " for url: " ++ url r))
  else ret tt.

Definition requests_get (w : world) (u : pystr) (timeout : Z) : M Response :=
  ([Requested (GET u timeout)], upstream w (GET u timeout)).

Definition requests_post (w : world) (u : pystr) (payload : value)
    (stream : bool) (timeout : Z * Z) : M Response :=
  ([Requested (POST u payload stream timeout)],
   upstream w (POST u payload stream timeout)).

(** [for line in r.iter_lines(): body], with the variables the body
    updates threaded as [st]. *)
Fixpoint for_lines {S : Type} (it : line_stream) (st : S)
    (body : bytes -> S -> M S) : M S :=
  match it with
  | EOF => ret st
  | Broken e => raise e
  | Line l rest => st' <- body l st ;; for_lines rest st' body
  end.

(** [for x in items: body] over a list. *)
Fixpoint for_each {A S : Type} (items : list A) (st : S)
    (body : A -> S -> M S) : M S :=
  match items with
  | [] => ret st
  | x :: items' => st' <- body x st ;; for_each items' st' body
  end.

(** ** The program *)

(** [OLLAMA_URL = os.getenv("OLLAMA_URL", "http://127.0.0.1:11434").rstrip("/")] *)
Definition OLLAMA_URL (w : world) : pystr :=
  rstrip_slash
    (match getenv w (str "OLLAMA_URL") with
     | Some u => u
     | None => str "http://127.0.0.1:11434"
     end).

(** [SESSION_TIMEOUT = (5, 120)], connect and read, in seconds. *)
Definition SESSION_TIMEOUT : Z * Z := (5, 120).

(** The request model of [POST /chat]; an optional field holds [None]
    ([None] here) or a value. *)
Record ChatIn : Type := {
  prompt : pystr;
  model : option pystr;
  temperature : option float;
  top_p : option float;
  max_tokens : option Z
}.

(** A field of a JSON request body: left out, [null], or given. *)
Inductive field (A : Type) : Type :=
| Absent
| Null
| Given (a : A).

Arguments Absent {A}.
Arguments Null {A}.
Arguments Given {A} a.

(** A field of the model with a default: the default fills in for a field
    that is left out, and [null] is kept as [None]. *)
Definition with_default {A : Type} (f : field A) (default : A) : option A :=
  match f with
  | Absent => Some default
  | Null => None
  | Given a => Some a
  end.

(** The model built from a request body whose fields have the declared
    types. *)
Definition ChatIn_of_body (p : pystr) (m : field pystr) (t tp : field float)
    (mt : field Z) : ChatIn :=
  {| prompt := p;
     model := with_default m (str "phi3:mini");
     temperature := with_default t 0.7%float;
     top_p := with_default tp 0.9%float;
     max_tokens := with_default mt 512 |}.

(** A parameter of a [GET] handler with a default: the default fills in
    for a parameter the query leaves out. *)
Definition query_default {A : Type} (q : option A) (default : A) : A :=
  match q with
  | Some a => a
  | None => default
  end.

Definition _make_payload (prompt model : pystr) (temperature top_p : float)
    (max_tokens : Z) : value :=
  let options :=
    VDict [ (str "temperature", VFloat (py_float temperature));
            (str "top_p", VFloat (py_float top_p));
            (str "num_predict", VInt (py_int max_tokens)) ] in
  VDict [ (str "model", VStr model);
          (str "prompt", VStr prompt);
          (str "options", options) ].

(** The [except json.JSONDecodeError: continue] clause of both loops. *)
Definition except_JSONDecodeError {S : Type} (st : S) (e : exn) : option (M S) :=
  match e with
  | JSONDecodeError => Some (ret st)
  | _ => None
  end.

(** The body of the loop of [_chat_full], at one line: an empty line is
    skipped; a line that [json.loads] rejects is skipped; a fragment is
    appended to [chunks]. *)
Definition chat_full_line (lim : interpreter) (line : bytes) (chunks : list value)
    : M (list value) :=
  match line with
  | [] => ret chunks
  | _ :: _ =>
      try_except
        (s <- lift (decode line) ;;
         obj <- lift (json_loads lim s) ;;
         has <- lift (py_in (str "response") obj) ;;
         if has : bool
         then v <- lift (py_getitem obj (str "response")) ;;
              ret (chunks ++ [v])
         else ret chunks)
        (except_JSONDecodeError chunks)
  end.

(** The body of the loop of [_chat_stream], at one line: the same tests,
    and a fragment is yielded. *)
Definition chat_stream_line (lim : interpreter) (line : bytes) (_ : unit) : M unit :=
  match line with
  | [] => ret tt
  | _ :: _ =>
      try_except
        (s <- lift (decode line) ;;
         obj <- lift (json_loads lim s) ;;
         has <- lift (py_in (str "response") obj) ;;
         if has : bool
         then v <- lift (py_getitem obj (str "response")) ;;
              yield v
         else ret tt)
        (except_JSONDecodeError tt)
  end.

Definition _chat_full (w : world) (prompt model : pystr)
    (temperature top_p : float) (max_tokens : Z) : M value :=
  try_except
    (let payload := _make_payload prompt model temperature top_p max_tokens in
     r <- requests_post w (OLLAMA_URL w ++ str "/api/generate") payload true
            SESSION_TIMEOUT ;;
     raise_for_status r ;;;
     chunks <- for_lines (iter_lines r) [] (chat_full_line (limits w)) ;;
     response <- lift (str_join [] chunks) ;;
     ret (VDict [ (str "model", VStr model);
                  (str "prompt", VStr prompt);
                  (str "temperature", VFloat temperature);
                  (str "top_p", VFloat top_p);
                  (str "max_tokens", VInt max_tokens);
                  (str "response", VStr response) ]))
    (fun e =>
       match e with
       | RequestException cls msg =>
           if is_Timeout cls
           then Some (raise (HTTPException 504 (str "Timeout talking to Ollama")))
           else Some (raise (HTTPException 502 (str "Ollama error: " ++ msg)))
       | _ => None
       end).

(** The generator behind [/stream], run to its end. *)
Definition _chat_stream (w : world) (prompt model : pystr)
    (temperature top_p : float) (max_tokens : Z) : M unit :=
  try_except
    (let payload := _make_payload prompt model temperature top_p max_tokens in
     r <- requests_post w (OLLAMA_URL w ++ str "/api/generate") payload true
            SESSION_TIMEOUT ;;
     raise_for_status r ;;;
     for_lines (iter_lines r) tt (chat_stream_line (limits w)))
    (fun e =>
       match e with
       | RequestException cls msg =>
           if is_Timeout cls
           then Some (yield (VStr (str "[Timeout talking to Ollama]")))
           else Some (yield (VStr (str "[Ollama error: " ++ msg ++ str "]")))
       | _ => None
       end).

(** One step of the comprehension
    [[m.get("name") for m in ... if m.get("name")]]. *)
Definition models_name (m : value) (names : list value) : M (list value) :=
  c <- lift (py_get m (str "name") VNone) ;;
  if truthy c
  then n <- lift (py_get m (str "name") VNone) ;; ret (names ++ [n])
  else ret names.

(** [GET /models]. *)
Definition models (w : world) : M value :=
  try_except
    (r <- requests_get w (OLLAMA_URL w ++ str "/api/tags") 30 ;;
     raise_for_status r ;;;
     data <- lift (json r) ;;
     ms <- lift (py_get data (str "models") (VList [])) ;;
     items <- lift (py_iter ms) ;;
     names <- for_each items [] models_name ;;
     ret (VDict [ (str "names", VList names); (str "raw", data) ]))
    (fun e =>
       match e with
       | RequestException _ msg =>
           Some (raise (HTTPException 502 (str "Ollama error: " ++ msg)))
       | _ => None
       end).

(** [GET /chat]: a parameter is [None] when the query leaves it out. *)
Definition chat_get (w : world) (prompt : pystr) (model : option pystr)
    (temperature top_p : option float) (max_tokens : option Z) : M value :=
  _chat_full w prompt
    (query_default model (str "phi3:mini"))
    (query_default temperature 0.7%float)
    (query_default top_p 0.9%float)
    (query_default max_tokens 512).

(** [POST /chat]. *)
Definition chat_post (w : world) (body : ChatIn) : M value :=
  _chat_full w
    (prompt body)
    (py_or (model body) (str "phi3:mini"))
    (py_or (temperature body) 0.7%float)
    (py_or (top_p body) 0.9%float)
    (py_or (max_tokens body) 512).

(** A [StreamingResponse]: FastAPI sends the status line and the headers,
    then drains the generator into the body. *)
Record StreamingResponse : Type := {
  media_type : pystr;
  body_iterator : M unit
}.

(** [GET /stream]. *)
Definition stream_get (w : world) (prompt : pystr) (model : option pystr)
    (temperature top_p : option float) (max_tokens : option Z) : StreamingResponse :=
  let gen := _chat_stream w prompt
               (query_default model (str "phi3:mini"))
               (query_default temperature 0.7%float)
               (query_default top_p 0.9%float)
               (query_default max_tokens 512) in
  {| media_type := str "text/plain"; body_iterator := gen |}.

(** The status a caller of a JSON endpoint sees: 200 when the handler
    returns, the status of a raised [HTTPException], 500 for any other
    exception that leaves the handler. *)
Definition http_status {A : Type} (m : M A) : Z :=
  match snd m with
  | Ok _ => 200
  | Raise (HTTPException code _) => code
  | Raise _ => 500
  end.

(** ** Definitions for the statements *)

(** The request [_chat_full] and [_chat_stream] send for given parameters. *)
Definition generate_call (w : world) (prompt model : pystr)
    (temperature top_p : float) (max_tokens : Z) : call :=
  POST (OLLAMA_URL w ++ str "/api/generate")
       (_make_payload prompt model temperature top_p max_tokens)
       true SESSION_TIMEOUT.

(** The request [models] sends. *)
Definition tags_call (w : world) : call :=
  GET (OLLAMA_URL w ++ str "/api/tags") 30.

(** [json.loads(line.decode("utf-8"))], the expression both loops evaluate
    on a line. *)
Definition loads_bytes (lim : interpreter) (line : bytes) : outcome value :=
  match decode line with
  | Ok s => json_loads lim s
  | Raise e => Raise e
  end.

(** What one line of the upstream stream contributes: nothing, a
    fragment, or an exception that no clause of the loop catches. *)
Definition line_fragment (lim : interpreter) (line : bytes) : outcome (option value) :=
  match line with
  | [] => Ok None
  | _ :: _ =>
      match utf8_decode line with
      | None => Raise UnicodeDecodeError
      | Some s =>
          match json_loads lim s with
          | Raise JSONDecodeError => Ok None
          | Raise e => Raise e
          | Ok obj =>
              match py_in (str "response") obj with
              | Raise e => Raise e
              | Ok false => Ok None
              | Ok true =>
                  match py_getitem obj (str "response") with
                  | Ok v => Ok (Some v)
                  | Raise e => Raise e
                  end
              end
          end
      end
  end.

(** The fragments of a stream, up to its end ([None]) or up to the first
    exception, of a line or of the transport. *)
Fixpoint fragments (lim : interpreter) (it : line_stream) : list value * option exn :=
  match it with
  | EOF => ([], None)
  | Broken e => ([], Some e)
  | Line l rest =>
      match line_fragment lim l with
      | Ok None => fragments lim rest
      | Ok (Some v) => let (fs, e) := fragments lim rest in (v :: fs, e)
      | Raise e => ([], Some e)
      end
  end.

(** What the [except] clauses of [_chat_full] make of an exception. *)
Definition chat_full_except (e : exn) : exn :=
  match e with
  | RequestException cls msg =>
      if is_Timeout cls
      then HTTPException 504 (str "Timeout talking to Ollama")
      else HTTPException 502 (str "Ollama error: " ++ msg)
  | _ => e
  end.

(** The fragment [_chat_stream] yields for a requests exception. *)
Definition stream_notice (cls : requests_class) (msg : pystr) : value :=
  if is_Timeout cls
  then VStr (str "[Timeout talking to Ollama]")
  else VStr (str "[Ollama error: " ++ msg ++ str "]").

(** How a run of the generator ends on an exception [e] after the events
    [evs]: a requests exception becomes a last fragment. *)
Definition stream_except (evs : list event) (e : exn) : M unit :=
  match e with
  | RequestException cls msg => (evs ++ [Yielded (stream_notice cls msg)], Ok tt)
  | _ => (evs, Raise e)
  end.

(** The dictionary [_chat_full] returns. *)
Definition chat_result (prompt model : pystr) (temperature top_p : float)
    (max_tokens : Z) (response : pystr) : value :=
  VDict [ (str "model", VStr model);
          (str "prompt", VStr prompt);
          (str "temperature", VFloat temperature);
          (str "top_p", VFloat top_p);
          (str "max_tokens", VInt max_tokens);
          (str "response", VStr response) ].

(** The status of a response is no error for [raise_for_status]. *)
Definition status_passes (r : Response) : bool :=
  negb ((400 <=? status_code r) && (status_code r <? 600)).

(** The message of the [HTTPError] for a response. *)
Definition http_error_message (r : Response) : pystr :=
  decimal (status_code r)
  ++ str (if status_code r <? 500 then " Client Error: " else " Server Error: ")
  ++ reason r ++ str " for url: " ++ url r.

(** A stub of the upstream server under given limits of the interpreter:
    no environment variable is set, and every call gets the same answer. *)
Definition stub_under (lim : interpreter) (answer : outcome Response) : world :=
  {| getenv := fun _ => None;
     limits := lim;
     upstream := fun _ => answer |}.

(** The stub under the limits of an interpreter as installed. *)
Definition stub (answer : outcome Response) : world :=
  stub_under default_limits answer.

(** A response of the generate endpoint with the given status and lines. *)
Definition generate_response (code : Z) (why : string) (it : line_stream) : Response :=
  {| status_code := code;
     reason := str why;
     url := str "http://127.0.0.1:11434/api/generate";
     iter_lines := it;
     json := Raise (RequestException RequestsJSONDecodeError
                      (str "Extra data")) |}.

(** A response of the tags endpoint with the given JSON document. *)
Definition tags_response (data : value) : Response :=
  {| status_code := 200;
     reason := str "OK";
     url := str "http://127.0.0.1:11434/api/tags";
     iter_lines := EOF;
     json := Ok data |}.

(** The stubbed body of the spec's example: two lines, a fragment each. *)
Definition hello_body : bytes :=
  dq "{'response':'Hel'}" ++ [x0a] ++ dq "{'response':'lo'}" ++ [x0a].

Definition hello_world : world :=
  stub (Ok (generate_response 200 "OK" (stream_of (splitlines hello_body)))).

(** The generate call [c] fails with a requests exception of class [cls]
    and message [msg], after the fragments [before] were read: the request
    itself raises, or the answer has a status from 400 to 599, or the
    transport raises while the lines [ls] of the body have been handled. *)
Inductive upstream_failure (w : world) (c : call) :
    requests_class -> pystr -> list value -> Prop :=
| fails_on_send (cls : requests_class) (msg : pystr) :
    upstream w c = Raise (RequestException cls msg) ->
    upstream_failure w c cls msg []
| fails_on_status (r : Response) :
    upstream w c = Ok r ->
    400 <= status_code r < 600 ->
    upstream_failure w c HTTPError (http_error_message r) []
| fails_in_stream (r : Response) (ls : list bytes) (cls : requests_class)
    (msg : pystr) (before : list value) :
    upstream w c = Ok r ->
    ~ 400 <= status_code r < 600 ->
    iter_lines r = broken_after ls (RequestException cls msg) ->
    fragments (limits w) (stream_of ls) = (before, None) ->
    upstream_failure w c cls msg before.

(** The status and the detail of the [HTTPException] that [_chat_full]
    raises for a requests exception. *)
Definition failure_status (cls : requests_class) : Z :=
  if is_Timeout cls then 504 else 502.

Definition failure_detail (cls : requests_class) (msg : pystr) : pystr :=
  if is_Timeout cls then str "Timeout talking to Ollama"
  else str "Ollama error: " ++ msg.

(** *** The faults of the generate call

    What goes wrong between the gateway and the upstream, as it happens on
    the wire, and the exception of [requests] it surfaces as.  While the
    request is sent, [HTTPAdapter.send] raises [ConnectTimeout] when the
    connection is not made in time and [ReadTimeout] when the status line
    and the headers do not arrive in time.  With [stream=True] the body is
    read later, by [iter_lines], and there [Response.iter_content] turns
    the read timeout of urllib3 into a [ConnectionError] that carries the
    text of urllib3's [ReadTimeoutError] (the pool, then
    ": Read timed out."), and a broken body into, for one,
    [ChunkedEncodingError]: no class of [requests.Timeout] is raised while
    the body is read. *)
Inductive fault : Type :=
| ConnectTimedOut (msg : pystr)
| ResponseTimedOut (msg : pystr)
| SendFailed (cls : requests_class) (msg : pystr)
| ErrorStatus (r : Response)
| BodyTimedOut (pool : pystr)
| BodyFailed (cls : requests_class) (msg : pystr).

(** The fault is a timeout. *)
Definition timed_out (f : fault) : bool :=
  match f with
  | ConnectTimedOut _ | ResponseTimedOut _ | BodyTimedOut _ => true
  | SendFailed _ _ | ErrorStatus _ | BodyFailed _ _ => false
  end.

(** The generate call [c] meets the fault [f] after the fragments [before]
    were read.  A fault of sending and an error status strike before any
    line is read; a fault of the body strikes after the lines [ls] have
    been handled.  [SendFailed] and [BodyFailed] stand for the failures
    that are no timeouts. *)
Inductive generate_fault (w : world) (c : call) : fault -> list value -> Prop :=
| connect_times_out (msg : pystr) :
    upstream w c = Raise (RequestException ConnectTimeout msg) ->
    generate_fault w c (ConnectTimedOut msg) []
| response_times_out (msg : pystr) :
    upstream w c = Raise (RequestException ReadTimeout msg) ->
    generate_fault w c (ResponseTimedOut msg) []
| send_fails (cls : requests_class) (msg : pystr) :
    is_Timeout cls = false ->
    upstream w c = Raise (RequestException cls msg) ->
    generate_fault w c (SendFailed cls msg) []
| status_is_error (r : Response) :
    upstream w c = Ok r ->
    400 <= status_code r < 600 ->
    generate_fault w c (ErrorStatus r) []
| body_times_out (r : Response) (ls : list bytes) (pool : pystr)
    (before : list value) :
    upstream w c = Ok r ->
    ~ 400 <= status_code r < 600 ->
    iter_lines r
    = broken_after ls (RequestException ConnectionError
                         (pool ++ str ": Read timed out.")) ->
    fragments (limits w) (stream_of ls) = (before, None) ->
    generate_fault w c (BodyTimedOut pool) before
| body_fails (r : Response) (ls : list bytes) (cls : requests_class)
    (msg : pystr) (before : list value) :
    is_Timeout cls = false ->
    upstream w c = Ok r ->
    ~ 400 <= status_code r < 600 ->
    iter_lines r = broken_after ls (RequestException cls msg) ->
    fragments (limits w) (stream_of ls) = (before, None) ->
    generate_fault w c (BodyFailed cls msg) before.

(** The status with which [/chat] answers a fault: 504 for a timeout that
    strikes while the request is sent, 502 for every other fault, the read
    timeout in the body among them. *)
Definition chat_fault_status (f : fault) : Z :=
  match f with
  | ConnectTimedOut _ | ResponseTimedOut _ => 504
  | SendFailed _ _ | ErrorStatus _ | BodyTimedOut _ | BodyFailed _ _ => 502
  end.

(** The detail of the error with which [/chat] answers a fault. *)
Definition chat_fault_detail (f : fault) : pystr :=
  match f with
  | ConnectTimedOut _ | ResponseTimedOut _ => str "Timeout talking to Ollama"
  | SendFailed _ msg | BodyFailed _ msg => str "Ollama error: " ++ msg
  | ErrorStatus r => str "Ollama error: " ++ http_error_message r
  | BodyTimedOut pool => str "Ollama error: " ++ pool ++ str ": Read timed out."
  end.

(** The text of the last fragment of [/stream] after a fault. *)
Definition stream_fault_notice (f : fault) : pystr :=
  match f with
  | ConnectTimedOut _ | ResponseTimedOut _ => str "[Timeout talking to Ollama]"
  | SendFailed _ msg | BodyFailed _ msg => str "[Ollama error: " ++ msg ++ str "]"
  | ErrorStatus r => str "[Ollama error: " ++ http_error_message r ++ str "]"
  | BodyTimedOut pool =>
      str "[Ollama error: " ++ pool ++ str ": Read timed out.]"
  end.

(** A text names a timeout. *)
Definition names_timeout (s : pystr) : bool :=
  str_contains (str "Timeout") s || str_contains (str "timed out") s.

(** The pool of the connection to the default upstream, as urllib3 prints
    it. *)
Definition local_pool : pystr :=
  str "HTTPConnectionPool(host='127.0.0.1', port=11434)".

(** A stub that delivers one fragment; then the read timeout runs out, and
    [iter_lines] raises the [ConnectionError] of that. *)
Definition slow_body_world : world :=
  stub (Ok (generate_response 200 "OK"
              (broken_after [dq "{'response':'Hel'}"]
                 (RequestException ConnectionError
                    (local_pool ++ str ": Read timed out."))))).

(** The request that carries the given values to the generate endpoint,
    written out field by field. *)
Definition forwarded_request (w : world) (prompt model : pystr)
    (temperature top_p : float) (max_tokens : Z) : call :=
  POST (OLLAMA_URL w ++ str "/api/generate")
       (VDict [ (str "model", VStr model);
                (str "prompt", VStr prompt);
                (str "options",
                 VDict [ (str "temperature", VFloat temperature);
                         (str "top_p", VFloat top_p);
                         (str "num_predict", VInt max_tokens) ]) ])
       true (5, 120).

(** A stub that answers with status 304 and an empty body. *)
Definition not_modified_world : world :=
  stub (Ok (generate_response 304 "Not Modified" EOF)).

(** A stub whose request raises a read timeout before any answer. *)
Definition silent_world : world :=
  stub (Raise (RequestException ReadTimeout (str "Read timed out. (read timeout=120)"))).

(** A stub that delivers one fragment, then raises a read timeout. *)
Definition stalled_world : world :=
  stub (Ok (generate_response 200 "OK"
              (broken_after [dq "{'response':'Hel'}"]
                 (RequestException ReadTimeout (str "Read timed out."))))).

(** A stub that delivers a line holding the JSON value [null] between two
    fragments. *)
Definition null_line_world : world :=
  stub (Ok (generate_response 200 "OK"
              (stream_of [dq "{'response':'Hel'}"; dq "null"; dq "{'response':'lo'}"]))).

(** A stub that delivers one line that is not UTF-8. *)
Definition bad_utf8_world : world :=
  stub (Ok (generate_response 200 "OK" (stream_of [[xff; xfe]]))).

(** A stub that delivers the single line [5], a JSON number. *)
Definition number_line_world : world :=
  stub (Ok (generate_response 200 "OK" (stream_of [dq "5"]))).

(** The spec's rule for a parameter of [POST /chat]: the default when the
    field is left out, [null] or falsy, the supplied value otherwise. *)
Definition post_parameter {A : Type} `{Truthy A} (f : field A) (default : A) : A :=
  match f with
  | Absent => default
  | Null => default
  | Given a => if truthy a then a else default
  end.

(** The rule of the [GET] handlers: the default when the query leaves the
    parameter out, the supplied value otherwise, falsy or not. *)
Definition get_parameter {A : Type} (q : option A) (default : A) : A :=
  match q with
  | None => default
  | Some a => a
  end.

(** The names [models] lists for the entries [ms] of the tags object: the
    "name" of each entry that has one that is not falsy (for a string: not
    empty), in order. *)
Definition model_names (ms : list dict) : list value :=
  flat_map
    (fun m =>
       match dict_lookup m (str "name") with
       | Some v => if truthy v then [v] else []
       | None => []
       end)
    ms.

(** A tags document with three entries: a named model, a model whose name
    is empty, and an entry without a name. *)
Definition sample_tags : value :=
  VDict [ (str "models",
           VList [ VDict [ (str "name", VStr (str "phi3:mini")); (str "size", VInt 2176178913) ];
                   VDict [ (str "name", VStr []) ];
                   VDict [ (str "size", VInt 1) ] ]) ].

Definition sample_tags_world : world := stub (Ok (tags_response sample_tags)).

(** A tags document with no model. *)
Definition no_models_world : world :=
  stub (Ok (tags_response (VDict [ (str "models", VList []) ]))).

(** Case analysis on an exception as the [except] clauses see it: a
    requests exception, by whether its class is a timeout, or any other
    exception. *)
Ltac by_except_clause e :=
  let cls := fresh "cls" in
  let msg := fresh "msg" in
  destruct e as [cls msg| | | | | | | |];
  [destruct (is_Timeout cls); reflexivity | reflexivity ..].

(** ** The rest of the HTTP surface *)

(** [GET /]: a constant message; the last character is U+1F680. *)
Definition root : M value :=
  ret (VDict [ (str "message",
                VStr (str "FastAPI + Ollama is running " ++ [128640%N])) ]).

(** A [JSONResponse] built by a handler: a status and a content. *)
Record JSONResponse : Type := {
  response_status : Z;
  content : value
}.

(** [str(e)]: the message of a requests exception, as in the f-strings of
    the other handlers; for the other exceptions the text is the
    interpreter's, taken as [describe]. *)
Definition exn_text (describe : exn -> pystr) (e : exn) : pystr :=
  match e with
  | RequestException _ msg => msg
  | _ => describe e
  end.

(** [GET /health]: the tags call with a timeout of ten seconds; the
    handler returns a dictionary, or a [JSONResponse] with status 502 for
    any exception. *)
Definition health (describe : exn -> pystr) (w : world) : M (value + JSONResponse) :=
  try_except
    (r <- requests_get w (OLLAMA_URL w ++ str "/api/tags") 10 ;;
     raise_for_status r ;;;
     data <- lift (json r) ;;
     ms <- lift (py_get data (str "models") (VList [])) ;;
     items <- lift (py_iter ms) ;;
     names <- for_each items [] models_name ;;
     ret (inl (VDict [ (str "ok", VBool true);
                       (str "ollama_url", VStr (OLLAMA_URL w));
                       (str "models", VList names) ])))
    (fun e =>
       Some (ret (inr {| response_status := 502;
                         content := VDict [ (str "ok", VBool false);
                                            (str "error", VStr (exn_text describe e)) ] |}))).

(** The request [health] sends. *)
Definition health_call (w : world) : call :=
  GET (OLLAMA_URL w ++ str "/api/tags") 10.

(** ** The script of the playground page: [loadModels]

    The document is what [res.json()] resolved to.  A string stands for the
    code points its iterator yields, a number for the JavaScript number of
    that value.  [None] stands for a [TypeError], which the [catch] of
    [loadModels] handles. *)

(** [data.names ?? []]: reading a property of [null] throws; a missing
    property is [undefined], which like [null] gives way to the empty
    array. *)
Definition js_names (data : value) : option value :=
  match data with
  | VNone => None
  | VDict d =>
      match dict_lookup d (str "names") with
      | Some VNone => Some (VList [])
      | Some v => Some v
      | None => Some (VList [])
      end
  | _ => Some (VList [])
  end.

(** [names.length === 0]: arrays and strings have a length; an object has
    one when it has such a key; nothing else has. *)
Definition js_length_is_zero (names : value) : bool :=
  match names with
  | VList l => match l with [] => true | _ :: _ => false end
  | VStr s => match s with [] => true | _ :: _ => false end
  | VDict d =>
      match dict_lookup d (str "length") with
      | Some (VInt z) => z =? 0
      | Some (VFloat f) => PrimFloat.eqb f 0%float
      | _ => false
      end
  | _ => false
  end.

(** [names.push(x)]: a method of arrays only. *)
Definition js_push (names : value) (x : value) : option value :=
  match names with
  | VList l => Some (VList (l ++ [x]))
  | _ => None
  end.

(** The items of [for (const m of names)]: arrays and strings are
    iterable. *)
Definition js_iterate (names : value) : option (list value) :=
  match names with
  | VList l => Some l
  | VStr s => Some (map (fun c => VStr [c]) s)
  | _ => None
  end.

(** Whether turning a value into a string throws, as [opt.value = m] does
    it: an object whose own "toString" is no function has no primitive
    value, and an array joins the strings of its elements. *)
Fixpoint js_string_throws (v : value) : bool :=
  match v with
  | VDict d =>
      match dict_lookup d (str "toString") with
      | Some _ => true
      | None => false
      end
  | VList l =>
      (fix any (l : list value) : bool :=
         match l with
         | [] => false
         | x :: l' => js_string_throws x || any l'
         end) l
  | _ => false
  end.

(** The loop over the names: an option per item, until an item throws.
    The result holds the values assigned to the options, and whether the
    loop ran to its end. *)
Fixpoint js_add_options (items : list value) : list value * bool :=
  match items with
  | [] => ([], true)
  | m :: items' =>
      if js_string_throws m then ([], false)
      else let (options, done) := js_add_options items' in (m :: options, done)
  end.

(** [loadModels]: the values assigned to the options the selector holds in
    the end (the page shows each as a string).  [fetched] is [None] when
    [fetch] or [res.json()] rejects.  The [catch] block adds the option
    "phi3:mini" behind the options added before the exception. *)
Definition loadModels (fetched : option value) : list value :=
  let fallback := [VStr (str "phi3:mini")] in
  match fetched with
  | None => fallback
  | Some data =>
      match js_names data with
      | None => fallback
      | Some names =>
          let filled :=
            if js_length_is_zero names
            then js_push names (VStr (str "phi3:mini"))
            else Some names in
          match filled with
          | None => fallback
          | Some names' =>
              match js_iterate names' with
              | Some items =>
                  let (options, done) := js_add_options items in
                  if done then options else options ++ fallback
              | None => fallback
              end
          end
      end
  end.

(** ** More definitions for the statements *)

(** What both tag-listing handlers compute from the answer to their call:
    the names and the document, or the first exception. *)
Definition listed (o : outcome Response) : outcome (list value * value) :=
  match o with
  | Raise e => Raise e
  | Ok r =>
      if status_passes r then
        match json r with
        | Raise e => Raise e
        | Ok data =>
            match py_get data (str "models") (VList []) with
            | Raise e => Raise e
            | Ok ms =>
                match py_iter ms with
                | Raise e => Raise e
                | Ok items =>
                    match snd (for_each items [] models_name) with
                    | Raise e => Raise e
                    | Ok names => Ok (names, data)
                    end
                end
            end
        end
      else Raise (RequestException HTTPError (http_error_message r))
  end.

(** The tags call [c] fails with a requests exception of class [cls] and
    message [msg]: the request raises, or the answer has a status from 400 to
    599, or [r.json()] raises. *)
Inductive tags_failure (w : world) (c : call) : requests_class -> pystr -> Prop :=
| tags_fails_on_send (cls : requests_class) (msg : pystr) :
    upstream w c = Raise (RequestException cls msg) ->
    tags_failure w c cls msg
| tags_fails_on_status (r : Response) :
    upstream w c = Ok r ->
    400 <= status_code r < 600 ->
    tags_failure w c HTTPError (http_error_message r)
| tags_fails_on_json (r : Response) (cls : requests_class) (msg : pystr) :
    upstream w c = Ok r ->
    ~ 400 <= status_code r < 600 ->
    json r = Raise (RequestException cls msg) ->
    tags_failure w c cls msg.

(** A line both loops pass over: it is empty, or [json.loads] raises
    [json.JSONDecodeError] on its text, or [json.loads] returns a JSON
    object without a "response" key.  A line on which [json.loads] raises
    another exception is not of this kind. *)
Definition skippable (lim : interpreter) (line : bytes) : Prop :=
  line = [] \/
  (exists s, utf8_decode line = Some s /\ json_loads lim s = Raise JSONDecodeError) \/
  (exists s d, utf8_decode line = Some s /\ json_loads lim s = Ok (VDict d) /\
               dict_lookup d (str "response") = None).

(** A line that carries the string [f] as its fragment: [json.loads]
    returns a JSON object whose "response" is [f]. *)
Definition carries (lim : interpreter) (line : bytes) (f : pystr) : Prop :=
  exists (s : pystr) (d : dict),
    utf8_decode line = Some s /\ json_loads lim s = Ok (VDict d) /\
    dict_lookup d (str "response") = Some (VStr f).

(** The lines of a body of which every one is passed over or carries a
    string, and the strings they carry, in order. *)
Inductive carried (lim : interpreter) : list bytes -> list pystr -> Prop :=
| carried_end : carried lim [] []
| carried_skip (l : bytes) (ls : list bytes) (fs : list pystr) :
    skippable lim l -> carried lim ls fs -> carried lim (l :: ls) fs
| carried_fragment (l : bytes) (ls : list bytes) (f : pystr) (fs : list pystr) :
    carries lim l f -> carried lim ls fs -> carried lim (l :: ls) (f :: fs).

(** A stream that delivers the given lines and then goes on as [rest]. *)
Fixpoint lines_then (ls : list bytes) (rest : line_stream) : line_stream :=
  match ls with
  | [] => rest
  | l :: ls' => Line l (lines_then ls' rest)
  end.

(** The response [r] with another body. *)
Definition with_lines (r : Response) (it : line_stream) : Response :=
  {| status_code := status_code r;
     reason := reason r;
     url := url r;
     iter_lines := it;
     json := json r |}.

(** A stub whose tags document is not JSON: [r.json()] raises. *)
Definition not_json_world : world :=
  stub (Ok {| status_code := 200;
              reason := str "OK";
              url := str "http://127.0.0.1:11434/api/tags";
              iter_lines := EOF;
              json := Raise (RequestException RequestsJSONDecodeError
                               (str "Expecting value: line 1 column 1 (char 0)")) |}).

(** The value [OLLAMA_URL] is computed from: the environment variable, or
    the default. *)
Definition configured_url (w : world) : pystr :=
  match getenv w (str "OLLAMA_URL") with
  | Some u => u
  | None => str "http://127.0.0.1:11434"
  end.

(** A stub that delivers three fragments, the last one empty. *)
Definition three_fragments_world : world :=
  stub (Ok (generate_response 200 "OK"
              (stream_of [dq "{'response':'a'}"; dq "{'response':'bc'}";
                          dq "{'response':'','done':true}"]))).

(** A stub that delivers, between two fragments, a JSON object without
    "response" whose value is an integer of 4301 digits. *)
Definition long_integer_world : world :=
  stub (Ok (generate_response 200 "OK"
              (stream_of [dq "{'response':'Hel'}";
                          dq "{'x':" ++ repeat x31 4301 ++ dq "}";
                          dq "{'response':'lo'}"]))).

(** * Properties *)

(** ** The decoder on sample texts *)

Example loads_fragment :
  loads_bytes default_limits (dq "{'response':'Hel'}") = Ok (VDict [ (str "response", VStr (str "Hel")) ]).
Proof. vm_compute. reflexivity. Qed.

Example loads_done_line :
  loads_bytes default_limits (dq "{'model':'phi3:mini','response':'','done':true,'eval_count':12}")
  = Ok (VDict [ (str "model", VStr (str "phi3:mini"));
                (str "response", VStr []);
                (str "done", VBool true);
                (str "eval_count", VInt 12) ]).
Proof. vm_compute. reflexivity. Qed.

Example loads_scalars :
  map (loads_bytes default_limits) [dq "null"; dq "true"; dq " 5 "; dq "-12"; dq "'a\nb'"; dq "[]"; dq "{}"]
  = [Ok VNone; Ok (VBool true); Ok (VInt 5); Ok (VInt (-12));
     Ok (VStr [97%N; 10%N; 98%N]); Ok (VList []); Ok (VDict [])].
Proof. vm_compute. reflexivity. Qed.

Example loads_floats :
  map (loads_bytes default_limits) [dq "0.7"; dq "1e2"; dq "-0.0"; dq "1e400"]
  = [Ok (VFloat 0.7%float); Ok (VFloat 100%float); Ok (VFloat (-0)%float);
     Ok (VFloat infinity)].
Proof. vm_compute. reflexivity. Qed.

Example loads_duplicate_key :
  loads_bytes default_limits (dq "{'a':1,'b':2,'a':3}")
  = Ok (VDict [ (str "a", VInt 3); (str "b", VInt 2) ]).
Proof. vm_compute. reflexivity. Qed.

Example loads_surrogate_pair :
  loads_bytes default_limits (dq "'\ud83d\ude00 \ud83d'") = Ok (VStr [128512%N; 32%N; 55357%N]).
Proof. vm_compute. reflexivity. Qed.

Example loads_rejects :
  map (loads_bytes default_limits)
    [dq "not json"; dq ""; dq "01"; dq "1."; dq "[1,]"; dq "{'a':1,}";
     dq "{'a' 1}"; dq "'abc"; dq "nullx"; dq "1 2"; dq "{1:2}"; dq "'\x'"]
  = repeat (Raise JSONDecodeError) 12.
Proof. vm_compute. reflexivity. Qed.

(** An integer literal of 4301 digits is more than the interpreter
    converts, alone or inside an object, and also when the text behind it
    is not JSON; 4300 digits are converted, and so is any number with a
    fraction or an exponent. *)
Example loads_digit_limit :
  map (loads_bytes default_limits)
    [repeat x31 4301;
     dq "{'x':" ++ repeat x31 4301 ++ dq "}";
     repeat x31 4301 ++ dq "x";
     dq "-" ++ repeat x31 4301 ++ dq "."]
  = repeat (Raise ValueError) 4 /\
  (exists n, loads_bytes default_limits (repeat x31 4300) = Ok (VInt n)) /\
  (exists x, loads_bytes default_limits (repeat x31 4301 ++ dq ".5") = Ok (VFloat x)) /\
  loads_bytes default_limits (dq "0" ++ repeat x31 4301) = Raise JSONDecodeError /\
  loads_bytes default_limits (dq "x " ++ repeat x31 4301) = Raise JSONDecodeError.
Proof.
  split; [vm_compute; reflexivity|].
  split; [eexists; vm_compute; reflexivity|].
  split; [eexists; vm_compute; reflexivity|].
  split; vm_compute; reflexivity.
Qed.

(** A thousand nested arrays are read; the bracket that opens one more
    raises [RecursionError], also when the text is cut off behind it. *)
Example loads_depth_limit :
  loads_bytes default_limits (repeat x5b 1000 ++ repeat x5d 1000) <> Raise RecursionError /\
  loads_bytes default_limits (repeat x5b 1001 ++ repeat x5d 1001) = Raise RecursionError /\
  loads_bytes default_limits (repeat x5b 1001) = Raise RecursionError /\
  loads_bytes default_limits (dq "{'x':" ++ repeat x5b 1000 ++ repeat x5d 1000 ++ dq "}")
  = Raise RecursionError /\
  loads_bytes default_limits (repeat x5b 1000) = Raise JSONDecodeError.
Proof.
  split; [vm_compute; discriminate|].
  repeat split; vm_compute; reflexivity.
Qed.

Example decode_rejects :
  map decode [[xff]; [xc0; x80]; [xed; xa0; x80]; [xe2; x82]; [xf4; x90; x80; x80]]
  = repeat (Raise UnicodeDecodeError) 5.
Proof. vm_compute. reflexivity. Qed.

Example splitlines_hello :
  splitlines hello_body = [dq "{'response':'Hel'}"; dq "{'response':'lo'}"].
Proof. vm_compute. reflexivity. Qed.

(** ** The loops, line by line *)

Lemma py_in_raises (k : pystr) (obj : value) (e : exn) :
  py_in k obj = Raise e -> e = TypeError.
Proof. destruct obj; simpl; congruence. Qed.

Lemma py_getitem_raises (obj : value) (k : pystr) (e : exn) :
  py_getitem obj k = Raise e -> e = TypeError \/ e = KeyError.
Proof.
  destruct obj; simpl; try (intros [= <-]; now left).
  destruct (dict_lookup d k); [discriminate|].
  intros [= <-]; now right.
Qed.

Lemma chat_full_line_spec (lim : interpreter) (line : bytes) (chunks : list value) :
  chat_full_line lim line chunks =
  ([], match line_fragment lim line with
       | Ok None => Ok chunks
       | Ok (Some v) => Ok (chunks ++ [v])
       | Raise e => Raise e
       end).
Proof.
  destruct line as [|b line]; [reflexivity|].
  unfold chat_full_line, line_fragment, decode.
  destruct (utf8_decode (b :: line)) as [s|]; [|reflexivity].
  cbn [lift bind try_except app].
  destruct (json_loads lim s) as [obj|e]; [|destruct e; reflexivity].
  cbn [lift bind try_except app].
  destruct (py_in (str "response") obj) as [[|]|e] eqn:Hin;
    cbn [lift bind try_except app].
  - destruct (py_getitem obj (str "response")) as [v|e] eqn:Hget;
      cbn [lift bind try_except app ret]; [reflexivity|].
    destruct (py_getitem_raises _ _ _ Hget) as [-> | ->]; reflexivity.
  - reflexivity.
  - rewrite (py_in_raises _ _ _ Hin). reflexivity.
Qed.

Lemma chat_stream_line_spec (lim : interpreter) (line : bytes) (u : unit) :
  chat_stream_line lim line u =
  match line_fragment lim line with
  | Ok None => ([], Ok tt)
  | Ok (Some v) => ([Yielded v], Ok tt)
  | Raise e => ([], Raise e)
  end.
Proof.
  destruct line as [|b line]; [reflexivity|].
  unfold chat_stream_line, line_fragment, decode.
  destruct (utf8_decode (b :: line)) as [s|]; [|reflexivity].
  cbn [lift bind try_except app].
  destruct (json_loads lim s) as [obj|e]; [|destruct e, u; reflexivity].
  cbn [lift bind try_except app].
  destruct (py_in (str "response") obj) as [[|]|e] eqn:Hin;
    cbn [lift bind try_except app].
  - destruct (py_getitem obj (str "response")) as [v|e] eqn:Hget;
      cbn [lift bind try_except app yield]; [reflexivity|].
    destruct (py_getitem_raises _ _ _ Hget) as [-> | ->]; reflexivity.
  - reflexivity.
  - rewrite (py_in_raises _ _ _ Hin). reflexivity.
Qed.

(** The loop of [_chat_full] gathers the fragments of the stream behind the
    chunks it starts with, and sends nothing. *)
Lemma chat_full_loop (lim : interpreter) (it : line_stream) (chunks : list value) :
  for_lines it chunks (chat_full_line lim) =
  ([], match fragments lim it with
       | (fs, None) => Ok (chunks ++ fs)
       | (_, Some e) => Raise e
       end).
Proof.
  revert chunks.
  induction it as [|l rest IH|e]; intros chunks; cbn [for_lines fragments].
  - unfold ret. now rewrite app_nil_r.
  - rewrite chat_full_line_spec.
    destruct (line_fragment lim l) as [[v|]|e]; cbn [bind].
    + rewrite IH. destruct (fragments lim rest) as [fs [e|]]; cbn [app]; [reflexivity|].
      now rewrite <- app_assoc.
    + rewrite IH. reflexivity.
    + reflexivity.
  - reflexivity.
Qed.

(** The loop of [_chat_stream] yields the same fragments, in order. *)
Lemma chat_stream_loop (lim : interpreter) (it : line_stream) :
  for_lines it tt (chat_stream_line lim) =
  (map Yielded (fst (fragments lim it)),
   match snd (fragments lim it) with
   | None => Ok tt
   | Some e => Raise e
   end).
Proof.
  induction it as [|l rest IH|e]; cbn [for_lines fragments].
  - reflexivity.
  - rewrite chat_stream_line_spec.
    destruct (line_fragment lim l) as [[v|]|e]; cbn [bind].
    + rewrite IH. destruct (fragments lim rest) as [fs [e|]]; reflexivity.
    + rewrite IH. destruct (fragments lim rest) as [fs [e|]]; reflexivity.
    + reflexivity.
  - reflexivity.
Qed.

(** ** The handlers, case by case *)

Lemma raise_for_status_spec (r : Response) :
  raise_for_status r =
  if status_passes r then ret tt
  else raise (RequestException HTTPError (http_error_message r)).
Proof.
  unfold raise_for_status, status_passes, http_error_message.
  destruct (400 <=? status_code r) eqn:H4; cbn [andb negb].
  - destruct (status_code r <? 500) eqn:H5; cbn [andb negb].
    + assert ((status_code r <? 600) = true) as -> by lia. reflexivity.
    + assert ((500 <=? status_code r) = true) as -> by lia.
      cbn [andb]. destruct (status_code r <? 600); reflexivity.
  - assert ((500 <=? status_code r) = false) as -> by lia. reflexivity.
Qed.

Lemma str_join_raises (sep : pystr) (items : list value) (e : exn) :
  str_join sep items = Raise e -> e = TypeError.
Proof.
  induction items as [|v items IH]; cbn [str_join]; [discriminate|].
  destruct v; try (intros [= <-]; reflexivity).
  destruct items as [|v' items']; [discriminate|].
  destruct (str_join sep (v' :: items')); [discriminate|].
  intros [= <-]. now apply IH.
Qed.

Lemma chat_full_run (w : world) (p m : pystr) (t tp : float) (mt : Z) :
  _chat_full w p m t tp mt =
  ([Requested (generate_call w p m t tp mt)],
   match upstream w (generate_call w p m t tp mt) with
   | Raise e => Raise (chat_full_except e)
   | Ok r =>
       if status_passes r then
         match fragments (limits w) (iter_lines r) with
         | (_, Some e) => Raise (chat_full_except e)
         | (fs, None) =>
             match str_join [] fs with
             | Ok s => Ok (chat_result p m t tp mt s)
             | Raise e => Raise e
             end
         end
       else Raise (HTTPException 502
                     (str "Ollama error: " ++ http_error_message r))
   end).
Proof.
  unfold _chat_full, requests_post. fold (generate_call w p m t tp mt).
  destruct (upstream w (generate_call w p m t tp mt)) as [r|e].
  - cbn [bind]. rewrite raise_for_status_spec.
    destruct (status_passes r); [|reflexivity].
    cbn [ret raise bind]. rewrite chat_full_loop.
    destruct (fragments (limits w) (iter_lines r)) as [fs [e|]].
    + cbn [bind try_except app]. unfold chat_full_except.
      by_except_clause e.
    + cbn [bind app lift]. destruct (str_join [] fs) as [s|e] eqn:Hj.
      * reflexivity.
      * rewrite (str_join_raises _ _ _ Hj). reflexivity.
  - cbn [bind try_except]. unfold chat_full_except.
    by_except_clause e.
Qed.

Lemma chat_stream_run (w : world) (p m : pystr) (t tp : float) (mt : Z) :
  _chat_stream w p m t tp mt =
  match upstream w (generate_call w p m t tp mt) with
  | Raise e => stream_except [Requested (generate_call w p m t tp mt)] e
  | Ok r =>
      if status_passes r then
        match fragments (limits w) (iter_lines r) with
        | (fs, None) =>
            (Requested (generate_call w p m t tp mt) :: map Yielded fs, Ok tt)
        | (fs, Some e) =>
            stream_except
              (Requested (generate_call w p m t tp mt) :: map Yielded fs) e
        end
      else stream_except [Requested (generate_call w p m t tp mt)]
             (RequestException HTTPError (http_error_message r))
  end.
Proof.
  unfold _chat_stream, requests_post. fold (generate_call w p m t tp mt).
  destruct (upstream w (generate_call w p m t tp mt)) as [r|e].
  - cbn [bind]. rewrite raise_for_status_spec.
    destruct (status_passes r).
    + cbn [ret raise bind]. rewrite chat_stream_loop.
      destruct (fragments (limits w) (iter_lines r)) as [fs [e|]]; cbn [fst snd app try_except].
      * unfold stream_except, stream_notice.
        by_except_clause e.
      * reflexivity.
    + cbn [raise bind try_except stream_except stream_notice is_Timeout yield app].
      reflexivity.
  - cbn [bind try_except]. unfold stream_except, stream_notice.
    by_except_clause e.
Qed.

Lemma status_passes_true (r : Response) :
  status_passes r = true <-> ~ 400 <= status_code r < 600.
Proof.
  unfold status_passes.
  destruct (400 <=? status_code r) eqn:H4;
    destruct (status_code r <? 600) eqn:H6; cbn [andb negb];
    split; intros H; try discriminate; try reflexivity; lia.
Qed.

Lemma status_passes_false (r : Response) :
  status_passes r = false <-> 400 <= status_code r < 600.
Proof.
  unfold status_passes.
  destruct (400 <=? status_code r) eqn:H4;
    destruct (status_code r <? 600) eqn:H6; cbn [andb negb];
    split; intros H; try discriminate; try reflexivity; lia.
Qed.

(** A stream that breaks after the lines [ls] has the fragments of [ls],
    unless a line raised before the break. *)
Lemma fragments_broken_after (lim : interpreter) (ls : list bytes) (e : exn) (before : list value) :
  fragments lim (stream_of ls) = (before, None) ->
  fragments lim (broken_after ls e) = (before, Some e).
Proof.
  revert before.
  induction ls as [|l ls IH]; intros before; cbn [stream_of broken_after fragments].
  - intros [= <-]. reflexivity.
  - destruct (line_fragment lim l) as [[v|]|e'].
    + destruct (fragments lim (stream_of ls)) as [fs oe].
      intros [= <- ->]. now rewrite (IH fs eq_refl).
    + apply IH.
    + discriminate.
Qed.

(** [str.join] with an empty separator succeeds on strings only, and
    concatenates them in order. *)
Lemma str_join_concat (items : list value) (s : pystr) :
  str_join [] items = Ok s ->
  exists fs : list pystr, items = map VStr fs /\ s = List.concat fs.
Proof.
  revert s.
  induction items as [|v items IH]; intros s; cbn [str_join].
  - intros [= <-]. now exists [].
  - destruct v; try discriminate.
    destruct items as [|v' items'].
    + intros [= <-]. exists [s0]. cbn. now rewrite app_nil_r.
    + destruct (str_join [] (v' :: items')) as [t|e]; [|discriminate].
      intros [= <-]. destruct (IH t eq_refl) as [fs [Hfs ->]].
      exists (s0 :: fs). cbn [map List.concat app]. now rewrite Hfs.
Qed.

Lemma yielded_app (a b : list event) : yielded (a ++ b) = yielded a ++ yielded b.
Proof.
  induction a as [|[c|v] a IH]; cbn [app yielded]; [reflexivity|assumption|].
  now rewrite IH.
Qed.

Lemma yielded_map_Yielded (vs : list value) : yielded (map Yielded vs) = vs.
Proof.
  induction vs as [|v vs IH]; cbn [map yielded]; [reflexivity|now rewrite IH].
Qed.

Lemma requested_map_Yielded (vs : list value) : requested (map Yielded vs) = [].
Proof.
  induction vs as [|v vs IH]; cbn [map requested]; [reflexivity|assumption].
Qed.

Lemma requested_app (a b : list event) : requested (a ++ b) = requested a ++ requested b.
Proof.
  induction a as [|[c|v] a IH]; cbn [app requested]; [reflexivity| |assumption].
  now rewrite IH.
Qed.

(** What [_chat_full] does when the generate call fails with a requests
    exception, wherever the failure strikes. *)
Lemma chat_full_failure (w : world) (p m : pystr) (t tp : float) (mt : Z)
    (cls : requests_class) (msg : pystr) (before : list value) :
  upstream_failure w (generate_call w p m t tp mt) cls msg before ->
  _chat_full w p m t tp mt =
  ([Requested (generate_call w p m t tp mt)],
   Raise (HTTPException (failure_status cls) (failure_detail cls msg))).
Proof.
  intros H. rewrite chat_full_run.
  unfold failure_status, failure_detail.
  destruct H as [cls msg Hs | r Hr Hc | r ls cls msg before Hr Hc Hl Hf].
  - rewrite Hs. cbn [chat_full_except]. destruct (is_Timeout cls); reflexivity.
  - rewrite Hr. apply status_passes_false in Hc. rewrite Hc. reflexivity.
  - rewrite Hr. apply status_passes_true in Hc. rewrite Hc, Hl.
    rewrite (fragments_broken_after _ _ _ _ Hf). cbn [chat_full_except].
    destruct (is_Timeout cls); reflexivity.
Qed.

(** What [_chat_stream] does in the same cases. *)
Lemma chat_stream_failure (w : world) (p m : pystr) (t tp : float) (mt : Z)
    (cls : requests_class) (msg : pystr) (before : list value) :
  upstream_failure w (generate_call w p m t tp mt) cls msg before ->
  _chat_stream w p m t tp mt =
  (Requested (generate_call w p m t tp mt)
     :: map Yielded before ++ [Yielded (stream_notice cls msg)],
   Ok tt).
Proof.
  intros H. rewrite chat_stream_run.
  destruct H as [cls msg Hs | r Hr Hc | r ls cls msg before Hr Hc Hl Hf].
  - rewrite Hs. reflexivity.
  - rewrite Hr. apply status_passes_false in Hc. rewrite Hc. reflexivity.
  - rewrite Hr. apply status_passes_true in Hc. rewrite Hc, Hl.
    rewrite (fragments_broken_after _ _ _ _ Hf). reflexivity.
Qed.

(** ** The aggregator and the relay agree *)

(** C2.  For every prompt, model and parameters and every upstream (a
    deterministic function of the request), when [/chat] returns a result,
    [/stream] on the same arguments runs to its end without an exception,
    the fragments it emits are strings, and the "response" of [/chat] is
    their concatenation in the order of emission. *)
Theorem chat_response_is_stream_concatenation (w : world) (p m : pystr)
    (t tp : float) (mt : Z) (res : value) :
  snd (_chat_full w p m t tp mt) = Ok res ->
  exists fs : list pystr,
    yielded (fst (_chat_stream w p m t tp mt)) = map VStr fs /\
    snd (_chat_stream w p m t tp mt) = Ok tt /\
    py_getitem res (str "response") = Ok (VStr (List.concat fs)).
Proof.
  rewrite chat_full_run, chat_stream_run. cbn [snd].
  destruct (upstream w (generate_call w p m t tp mt)) as [r|e]; [|discriminate].
  destruct (status_passes r); [|discriminate].
  destruct (fragments (limits w) (iter_lines r)) as [vs [e|]]; [discriminate|].
  destruct (str_join [] vs) as [s|e] eqn:Hj; [|discriminate].
  intros [= <-].
  destruct (str_join_concat _ _ Hj) as [fs [-> ->]].
  exists fs. cbn [fst snd yielded].
  rewrite yielded_map_Yielded. repeat split.
Qed.

(** On the two-line example both endpoints run with the default
    parameters: [/chat] returns "Hello" and [/stream] emits its pieces. *)
Lemma chat_response_is_stream_concatenation_witness :
  snd (chat_get hello_world (str "Say hello") None None None None)
  = Ok (chat_result (str "Say hello") (str "phi3:mini") 0.7%float 0.9%float 512
          (str "Hello"))
  /\ exists fs : list pystr,
       yielded (fst (body_iterator
                       (stream_get hello_world (str "Say hello") None None None None)))
       = map VStr fs /\
       snd (body_iterator
              (stream_get hello_world (str "Say hello") None None None None))
       = Ok tt /\
       py_getitem (chat_result (str "Say hello") (str "phi3:mini") 0.7%float
                     0.9%float 512 (str "Hello")) (str "response")
       = Ok (VStr (List.concat fs)).
Proof.
  split; [vm_compute; reflexivity|].
  apply (chat_response_is_stream_concatenation hello_world (str "Say hello")
           (str "phi3:mini") 0.7%float 0.9%float 512).
  vm_compute; reflexivity.
Defined.

(** ** Failures of the upstream call *)

(** A fault of the generate call is a failure with a requests exception,
    and the answers of the two handlers to that exception are the ones
    listed for the fault. *)
Lemma generate_fault_failure (w : world) (c : call) (f : fault)
    (before : list value) :
  generate_fault w c f before ->
  exists (cls : requests_class) (msg : pystr),
    upstream_failure w c cls msg before /\
    failure_status cls = chat_fault_status f /\
    failure_detail cls msg = chat_fault_detail f /\
    stream_notice cls msg = VStr (stream_fault_notice f).
Proof.
  intros [msg Hu | msg Hu | cls msg Hc Hu | r Hu Hs
         | r ls pool before' Hu Hs Hl Hf | r ls cls msg before' Hc Hu Hs Hl Hf].
  - exists ConnectTimeout, msg. split; [now apply fails_on_send|]. repeat split.
  - exists ReadTimeout, msg. split; [now apply fails_on_send|]. repeat split.
  - exists cls, msg. split; [now apply fails_on_send|].
    unfold failure_status, failure_detail, stream_notice. rewrite Hc. repeat split.
  - exists HTTPError, (http_error_message r).
    split; [now apply fails_on_status|]. repeat split.
  - exists ConnectionError, (pool ++ str ": Read timed out.").
    split; [now apply (fails_in_stream _ _ r ls)|].
    split; [reflexivity|]. split; [reflexivity|].
    unfold stream_notice, stream_fault_notice. cbn [is_Timeout].
    rewrite <- app_assoc. reflexivity.
  - exists cls, msg. split; [now apply (fails_in_stream _ _ r ls)|].
    unfold failure_status, failure_detail, stream_notice. rewrite Hc. repeat split.
Qed.

Lemma str_startswith_app (n b : pystr) : str_startswith (n ++ b) n = true.
Proof.
  induction n as [|c n IH]; [destruct b; reflexivity|].
  cbn [app str_startswith]. now rewrite N.eqb_refl, IH.
Qed.

Lemma str_contains_app (n a b : pystr) : str_contains n (a ++ n ++ b) = true.
Proof.
  induction a as [|c a IH].
  - cbn [app]. destruct (n ++ b) as [|c h] eqn:E; cbn [str_contains];
      rewrite <- E, str_startswith_app; reflexivity.
  - cbn [app str_contains]. rewrite IH. apply orb_true_r.
Qed.

(** The last fragment of [/stream] after a timeout names the timeout. *)
Lemma stream_fault_notice_names_timeout (f : fault) :
  timed_out f = true -> names_timeout (stream_fault_notice f) = true.
Proof.
  destruct f as [msg|msg|cls msg|r|pool|cls msg]; try discriminate; intros _;
    [reflexivity|reflexivity|].
  unfold names_timeout, stream_fault_notice.
  replace (str "[Ollama error: " ++ pool ++ str ": Read timed out.]")
    with ((str "[Ollama error: " ++ pool ++ str ": Read ")
          ++ str "timed out" ++ str ".]")
    by (rewrite <- !app_assoc; reflexivity).
  rewrite str_contains_app. apply orb_true_r.
Qed.




(** C9.  When the transport raises a requests exception after lines of the
    body have been handled and fragments gathered, [/chat] raises the
    [HTTPException] (504 for a timeout, 502 otherwise) and returns nothing:
    the fragments gathered so far are dropped. *)
Theorem chat_drops_partial_response (w : world) (p m : pystr) (t tp : float)
    (mt : Z) (r : Response) (ls : list bytes) (cls : requests_class)
    (msg : pystr) (before : list value) :
  upstream w (generate_call w p m t tp mt) = Ok r ->
  ~ 400 <= status_code r < 600 ->
  iter_lines r = broken_after ls (RequestException cls msg) ->
  fragments (limits w) (stream_of ls) = (before, None) ->
  _chat_full w p m t tp mt =
    ([Requested (generate_call w p m t tp mt)],
     Raise (HTTPException (if is_Timeout cls then 504 else 502)
              (failure_detail cls msg))) /\
  forall res : value, snd (_chat_full w p m t tp mt) <> Ok res.
Proof.
  intros Hr Hc Hl Hf.
  rewrite (chat_full_failure w p m t tp mt cls msg before
             (fails_in_stream _ _ r ls cls msg before Hr Hc Hl Hf)).
  unfold failure_status. split; [reflexivity|].
  intros res. cbn [snd]. discriminate.
Qed.

(** One fragment arrives, then the read times out: [/chat] raises, and the
    fragment "Hel" is not returned. *)
Lemma chat_drops_partial_response_witness :
  fragments default_limits (stream_of [dq "{'response':'Hel'}"]) = ([VStr (str "Hel")], None) /\
  _chat_full stalled_world (str "hi") (str "phi3:mini") 0.7%float 0.9%float 512 =
    ([Requested (generate_call stalled_world (str "hi") (str "phi3:mini")
                   0.7%float 0.9%float 512)],
     Raise (HTTPException 504 (str "Timeout talking to Ollama"))).
Proof.
  assert (Hf : fragments default_limits (stream_of [dq "{'response':'Hel'}"])
               = ([VStr (str "Hel")], None)) by (vm_compute; reflexivity).
  split; [exact Hf|].
  refine (proj1 (chat_drops_partial_response stalled_world (str "hi")
                   (str "phi3:mini") 0.7%float 0.9%float 512
                   (generate_response 200 "OK"
                      (broken_after [dq "{'response':'Hel'}"]
                         (RequestException ReadTimeout (str "Read timed out."))))
                   [dq "{'response':'Hel'}"] ReadTimeout (str "Read timed out.")
                   [VStr (str "Hel")] _ _ _ Hf)).
  - reflexivity.
  - cbn; lia.
  - reflexivity.
Defined.

(** C5.  When the generate call meets a fault, at any point, the relay
    emits the fragments read so far, then exactly one more fragment, and
    ends without an exception.  That fragment is the notice
    "[Timeout talking to Ollama]" for a timeout while the request is sent,
    the text "[Ollama error: ...: Read timed out.]" for a read timeout in
    the body, and the text "[Ollama error: ...]" around the message of the
    failure otherwise; for every timeout it names the timeout. *)
Theorem stream_ends_with_one_notice (w : world) (p m : pystr) (t tp : float)
    (mt : Z) (f : fault) (before : list value) :
  generate_fault w (generate_call w p m t tp mt) f before ->
  yielded (fst (_chat_stream w p m t tp mt))
  = before ++ [VStr (stream_fault_notice f)] /\
  snd (_chat_stream w p m t tp mt) = Ok tt /\
  (timed_out f = true -> names_timeout (stream_fault_notice f) = true).
Proof.
  intros H.
  destruct (generate_fault_failure _ _ _ _ H) as [cls [msg [Hu [_ [_ Hn]]]]].
  rewrite (chat_stream_failure _ _ _ _ _ _ _ _ _ Hu), Hn.
  cbn [fst snd yielded]. rewrite yielded_app, yielded_map_Yielded.
  split; [reflexivity|]. split; [reflexivity|].
  apply stream_fault_notice_names_timeout.
Qed.

(** An upstream that lets the read timeout pass before it answers:
    [/stream] emits the one notice and ends.  An upstream that sends the
    fragment "Hel" and then lets the read timeout pass: [/stream] emits
    "Hel", then one fragment that names the timeout, and ends. *)
Lemma stream_ends_with_one_notice_witness :
  (generate_fault silent_world
     (generate_call silent_world (str "hi") (str "phi3:mini") 0.7%float 0.9%float 512)
     (ResponseTimedOut (str "Read timed out. (read timeout=120)")) [] /\
   yielded (fst (body_iterator
                   (stream_get silent_world (str "hi") None None None None)))
   = [VStr (str "[Timeout talking to Ollama]")] /\
   snd (body_iterator (stream_get silent_world (str "hi") None None None None))
   = Ok tt) /\
  (generate_fault slow_body_world
     (generate_call slow_body_world (str "hi") (str "phi3:mini")
        0.7%float 0.9%float 512)
     (BodyTimedOut local_pool) [VStr (str "Hel")] /\
   yielded (fst (body_iterator
                   (stream_get slow_body_world (str "hi") None None None None)))
   = [VStr (str "Hel");
      VStr (str "[Ollama error: HTTPConnectionPool(host='127.0.0.1', port=11434): Read timed out.]")] /\
   snd (body_iterator (stream_get slow_body_world (str "hi") None None None None))
   = Ok tt /\
   names_timeout
     (str "[Ollama error: HTTPConnectionPool(host='127.0.0.1', port=11434): Read timed out.]")
   = true).
Proof.
  assert (H1 : generate_fault silent_world
                 (generate_call silent_world (str "hi") (str "phi3:mini")
                    0.7%float 0.9%float 512)
                 (ResponseTimedOut (str "Read timed out. (read timeout=120)")) []).
  { apply response_times_out. reflexivity. }
  assert (H2 : generate_fault slow_body_world
                 (generate_call slow_body_world (str "hi") (str "phi3:mini")
                    0.7%float 0.9%float 512)
                 (BodyTimedOut local_pool) [VStr (str "Hel")]).
  { apply (body_times_out _ _
             (generate_response 200 "OK"
                (broken_after [dq "{'response':'Hel'}"]
                   (RequestException ConnectionError
                      (local_pool ++ str ": Read timed out."))))
             [dq "{'response':'Hel'}"]).
    - reflexivity.
    - cbn; lia.
    - reflexivity.
    - vm_compute; reflexivity. }
  split; (split; [assumption|]).
  - destruct (stream_ends_with_one_notice _ _ _ _ _ _ _ _ H1) as [Hy [Hs _]].
    split; [exact Hy|exact Hs].
  - destruct (stream_ends_with_one_notice _ _ _ _ _ _ _ _ H2) as [Hy [Hs Hn]].
    split; [exact Hy|]. split; [exact Hs|]. exact (Hn eq_refl).
Defined.

(** ** Lines that are skipped, and lines that are not *)

(** The lines both loops pass over: an empty line, a line on which
    [json.loads] raises [json.JSONDecodeError], and a JSON object without a
    "response" key. *)
Lemma skipped_lines (lim : interpreter) (line : bytes) (s : pystr) :
  line_fragment lim [] = Ok None /\
  (utf8_decode line = Some s -> json_loads lim s = Raise JSONDecodeError ->
   line_fragment lim line = Ok None) /\
  (forall d : dict,
     utf8_decode line = Some s -> json_loads lim s = Ok (VDict d) ->
     dict_lookup d (str "response") = None ->
     line_fragment lim line = Ok None).
Proof.
  split; [reflexivity|]. split.
  - intros Hd Hp. destruct line as [|b line]; [reflexivity|].
    unfold line_fragment. now rewrite Hd, Hp.
  - intros d Hd Hp Hl. destruct line as [|b line]; [reflexivity|].
    unfold line_fragment. rewrite Hd, Hp. cbn [py_in]. now rewrite Hl.
Qed.

Lemma str_join_strings (fs : list pystr) :
  str_join [] (map VStr fs) = Ok (List.concat fs).
Proof.
  induction fs as [|f fs IH]; [reflexivity|].
  cbn [map str_join]. destruct fs as [|f' fs'].
  - cbn. now rewrite app_nil_r.
  - cbn [map] in *. rewrite IH. reflexivity.
Qed.

(** On a stream that ends without an exception of a line or of the
    transport and whose fragments are strings, behind a status that is no
    error, [/chat] returns their concatenation, in order, beside the
    parameters of the call. *)
Lemma chat_full_of_fragments (w : world) (p m : pystr) (t tp : float) (mt : Z)
    (r : Response) (fs : list pystr) :
  upstream w (generate_call w p m t tp mt) = Ok r ->
  ~ 400 <= status_code r < 600 ->
  fragments (limits w) (iter_lines r) = (map VStr fs, None) ->
  _chat_full w p m t tp mt =
  ([Requested (generate_call w p m t tp mt)],
   Ok (chat_result p m t tp mt (List.concat fs))).
Proof.
  intros Hr Hc Hf. rewrite chat_full_run, Hr.
  apply status_passes_true in Hc. rewrite Hc, Hf, str_join_strings.
  reflexivity.
Qed.

(** The example of the spec: two lines, "Hel" and "lo". *)
Example chat_hello :
  snd (_chat_full hello_world (str "hi") (str "phi3:mini") 0.7%float 0.9%float 512)
  = Ok (chat_result (str "hi") (str "phi3:mini") 0.7%float 0.9%float 512
          (str "Hello")).
Proof. vm_compute. reflexivity. Qed.

Example stream_hello :
  yielded (fst (_chat_stream hello_world (str "hi") (str "phi3:mini")
                  0.7%float 0.9%float 512))
  = [VStr (str "Hel"); VStr (str "lo")] /\
  snd (_chat_stream hello_world (str "hi") (str "phi3:mini") 0.7%float 0.9%float 512)
  = Ok tt.
Proof. split; vm_compute; reflexivity. Qed.

(** C1, at an input where the program departs from it.  The upstream
    delivers the lines [{"response":"Hel"}], [null] and [{"response":"lo"}].
    The second line is a JSON text, and it holds no "response" fragment;
    [/chat] does not return "Hello": the test ["response" in obj] raises
    [TypeError] on [None], no [except] clause matches, and the caller
    gets status 500. *)
Theorem chat_raises_on_null_line :
  loads_bytes default_limits (dq "null") = Ok VNone /\
  py_in (str "response") VNone = Raise TypeError /\
  _chat_full null_line_world (str "hi") (str "phi3:mini") 0.7%float 0.9%float 512
  = ([Requested (generate_call null_line_world (str "hi") (str "phi3:mini")
                   0.7%float 0.9%float 512)],
     Raise TypeError) /\
  http_status (_chat_full null_line_world (str "hi") (str "phi3:mini")
                 0.7%float 0.9%float 512) = 500.
Proof. repeat split; vm_compute; reflexivity. Qed.

(** C3, at inputs where the program departs from it.  A line that holds
    the JSON number [5] parses and has no "response" field; a line that is
    not UTF-8 does not parse.  Neither is skipped: the first raises
    [TypeError] and the second [UnicodeDecodeError], in the aggregator and
    in the relay alike, and the exception leaves the handler. *)
Theorem unskipped_lines_abort_the_request :
  (loads_bytes default_limits (dq "5") = Ok (VInt 5) /\
   snd (_chat_full number_line_world (str "hi") (str "phi3:mini")
          0.7%float 0.9%float 512) = Raise TypeError /\
   snd (_chat_stream number_line_world (str "hi") (str "phi3:mini")
          0.7%float 0.9%float 512) = Raise TypeError) /\
  (loads_bytes default_limits [xff; xfe] = Raise UnicodeDecodeError /\
   snd (_chat_full bad_utf8_world (str "hi") (str "phi3:mini")
          0.7%float 0.9%float 512) = Raise UnicodeDecodeError /\
   snd (_chat_stream bad_utf8_world (str "hi") (str "phi3:mini")
          0.7%float 0.9%float 512) = Raise UnicodeDecodeError) /\
  http_status (_chat_full number_line_world (str "hi") (str "phi3:mini")
                 0.7%float 0.9%float 512) = 500 /\
  http_status (_chat_full bad_utf8_world (str "hi") (str "phi3:mini")
                 0.7%float 0.9%float 512) = 500.
Proof. repeat split; vm_compute; reflexivity. Qed.

(** ** The payload and the parameters *)

Lemma requested_chat_full (w : world) (p m : pystr) (t tp : float) (mt : Z) :
  requested (fst (_chat_full w p m t tp mt)) = [generate_call w p m t tp mt].
Proof. rewrite chat_full_run. reflexivity. Qed.

Lemma requested_chat_stream (w : world) (p m : pystr) (t tp : float) (mt : Z) :
  requested (fst (_chat_stream w p m t tp mt)) = [generate_call w p m t tp mt].
Proof.
  rewrite chat_stream_run.
  assert (Hx : forall evs e,
             requested (fst (stream_except evs e)) = requested evs).
  { intros evs e. destruct e; try reflexivity.
    cbn [stream_except fst]. rewrite requested_app. cbn. apply app_nil_r. }
  destruct (upstream w (generate_call w p m t tp mt)) as [r|e].
  - destruct (status_passes r).
    + destruct (fragments (limits w) (iter_lines r)) as [fs [e|]].
      * rewrite Hx. cbn [requested]. now rewrite requested_map_Yielded.
      * cbn [fst requested]. now rewrite requested_map_Yielded.
    + rewrite Hx. reflexivity.
  - rewrite Hx. reflexivity.
Qed.

(** C7.  The payload is a dictionary with exactly the keys "model",
    "prompt" and "options"; "options" is a dictionary with exactly the keys
    "temperature", "top_p" and "num_predict"; there is no "max_tokens" key,
    and "num_predict" holds the value of [max_tokens].  This payload is what
    [_chat_full] and [_chat_stream] post to the generate endpoint, once. *)
Theorem make_payload_shape (w : world) (p m : pystr) (t tp : float) (mt : Z) :
  exists d options : dict,
    _make_payload p m t tp mt = VDict d /\
    dict_keys d = [str "model"; str "prompt"; str "options"] /\
    dict_lookup d (str "model") = Some (VStr m) /\
    dict_lookup d (str "prompt") = Some (VStr p) /\
    dict_lookup d (str "options") = Some (VDict options) /\
    dict_keys options = [str "temperature"; str "top_p"; str "num_predict"] /\
    dict_lookup options (str "temperature") = Some (VFloat t) /\
    dict_lookup options (str "top_p") = Some (VFloat tp) /\
    dict_lookup options (str "num_predict") = Some (VInt mt) /\
    dict_lookup options (str "max_tokens") = None /\
    requested (fst (_chat_full w p m t tp mt))
    = [POST (OLLAMA_URL w ++ str "/api/generate") (VDict d) true (5, 120)] /\
    requested (fst (_chat_stream w p m t tp mt))
    = [POST (OLLAMA_URL w ++ str "/api/generate") (VDict d) true (5, 120)].
Proof.
  eexists. eexists. split; [reflexivity|].
  rewrite requested_chat_full, requested_chat_stream.
  repeat split.
Qed.

Lemma py_or_with_default {A : Type} `{Truthy A} (f : field A) (default : A) :
  py_or (with_default f default) default = post_parameter f default.
Proof.
  destruct f as [| |a]; cbn [with_default py_or post_parameter]; try reflexivity.
  destruct (truthy default); reflexivity.
Qed.

Lemma chat_post_effective (w : world) (p : pystr) (m : field pystr)
    (t tp : field float) (mt : field Z) :
  chat_post w (ChatIn_of_body p m t tp mt) =
  _chat_full w p
    (post_parameter m (str "phi3:mini"))
    (post_parameter t 0.7%float)
    (post_parameter tp 0.9%float)
    (post_parameter mt 512).
Proof.
  unfold chat_post, ChatIn_of_body. cbn [prompt model temperature top_p max_tokens].
  now rewrite !py_or_with_default.
Qed.

(** C6, as amended.  [POST /chat] uses the default of a parameter when the
    field is left out, [null] or falsy, and the supplied value otherwise;
    [GET /chat] uses the default when the query leaves the parameter out, and
    the supplied value otherwise, falsy or not.  The value so determined is
    the one in the request sent upstream, sent once, and the one echoed in
    the result. *)
Theorem chat_parameter_defaults (w : world) (p : pystr) :
  (forall (m : field pystr) (t tp : field float) (mt : field Z),
     requested (fst (chat_post w (ChatIn_of_body p m t tp mt)))
     = [generate_call w p
          (post_parameter m (str "phi3:mini")) (post_parameter t 0.7%float)
          (post_parameter tp 0.9%float) (post_parameter mt 512)] /\
     forall res : value,
       snd (chat_post w (ChatIn_of_body p m t tp mt)) = Ok res ->
       exists s : pystr,
         res = chat_result p
                 (post_parameter m (str "phi3:mini")) (post_parameter t 0.7%float)
                 (post_parameter tp 0.9%float) (post_parameter mt 512) s) /\
  (forall (m : option pystr) (t tp : option float) (mt : option Z),
     requested (fst (chat_get w p m t tp mt))
     = [generate_call w p
          (get_parameter m (str "phi3:mini")) (get_parameter t 0.7%float)
          (get_parameter tp 0.9%float) (get_parameter mt 512)] /\
     forall res : value,
       snd (chat_get w p m t tp mt) = Ok res ->
       exists s : pystr,
         res = chat_result p
                 (get_parameter m (str "phi3:mini")) (get_parameter t 0.7%float)
                 (get_parameter tp 0.9%float) (get_parameter mt 512) s).
Proof.
  assert (Hres : forall m t tp mt res,
             snd (_chat_full w p m t tp mt) = Ok res ->
             exists s, res = chat_result p m t tp mt s).
  { intros m t tp mt res. rewrite chat_full_run. cbn [snd].
    destruct (upstream w (generate_call w p m t tp mt)) as [r|e]; [|discriminate].
    destruct (status_passes r); [|discriminate].
    destruct (fragments (limits w) (iter_lines r)) as [vs [e|]]; [discriminate|].
    destruct (str_join [] vs) as [s|e]; [|discriminate].
    intros [= <-]. now exists s. }
  split.
  - intros m t tp mt. rewrite chat_post_effective. split.
    + apply requested_chat_full.
    + apply Hres.
  - intros m t tp mt. unfold chat_get. split.
    + rewrite requested_chat_full.
      destruct m, t, tp, mt; reflexivity.
    + intros res Hr. destruct (Hres _ _ _ _ _ Hr) as [s ->]. exists s.
      destruct m, t, tp, mt; reflexivity.
Qed.

(** A body with [temperature] 0 and [max_tokens] [null], and no other
    field but the prompt: the defaults go upstream and come back in the
    result. *)
Lemma chat_parameter_defaults_witness :
  requested (fst (chat_post hello_world
                    (ChatIn_of_body (str "hi") Absent (Given 0%float) Absent Null)))
  = [generate_call hello_world (str "hi") (str "phi3:mini") 0.7%float 0.9%float 512] /\
  snd (chat_post hello_world
         (ChatIn_of_body (str "hi") Absent (Given 0%float) Absent Null))
  = Ok (chat_result (str "hi") (str "phi3:mini") 0.7%float 0.9%float 512
          (str "Hello")).
Proof.
  split.
  - exact (proj1 (proj1 (chat_parameter_defaults hello_world (str "hi"))
                    Absent (Given 0%float) Absent Null)).
  - vm_compute. reflexivity.
Defined.

(** [GET /chat] with [temperature=0] and [max_tokens=0]: both values go
    upstream as given, where the rule "default when falsy" would send 0.7
    and 512. *)
Lemma chat_get_keeps_falsy_values :
  requested (fst (chat_get hello_world (str "hi") None (Some 0%float) None (Some 0)))
  = [generate_call hello_world (str "hi") (str "phi3:mini") 0%float 0.9%float 0] /\
  generate_call hello_world (str "hi") (str "phi3:mini") 0%float 0.9%float 0
  <> generate_call hello_world (str "hi") (str "phi3:mini") 0.7%float 0.9%float 512.
Proof.
  split; [vm_compute; reflexivity|].
  vm_compute. intros H. discriminate H.
Qed.

(** C10.  In [GET /chat] and [GET /stream] a supplied parameter goes into
    the upstream payload as given, whatever its truth value: the one
    request sent is the POST to the generate endpoint whose payload holds
    the supplied model under "model", and under "options" the supplied
    temperature, top_p and max_tokens as "temperature", "top_p" and
    "num_predict"; with temperature 0 and max_tokens 0 the payload holds 0
    and 0.  [POST /chat] sends the default in the place of a supplied value
    that is falsy: 0.7 for temperature 0 and 512 for max_tokens 0. *)
Theorem get_handlers_forward_supplied_values (w : world) (p m : pystr)
    (t tp : float) (mt : Z) :
  requested (fst (chat_get w p (Some m) (Some t) (Some tp) (Some mt)))
  = [POST (OLLAMA_URL w ++ str "/api/generate")
       (VDict [ (str "model", VStr m);
                (str "prompt", VStr p);
                (str "options",
                 VDict [ (str "temperature", VFloat t);
                         (str "top_p", VFloat tp);
                         (str "num_predict", VInt mt) ]) ])
       true (5, 120)] /\
  requested (fst (body_iterator
                    (stream_get w p (Some m) (Some t) (Some tp) (Some mt))))
  = [POST (OLLAMA_URL w ++ str "/api/generate")
       (VDict [ (str "model", VStr m);
                (str "prompt", VStr p);
                (str "options",
                 VDict [ (str "temperature", VFloat t);
                         (str "top_p", VFloat tp);
                         (str "num_predict", VInt mt) ]) ])
       true (5, 120)] /\
  requested (fst (chat_post w (ChatIn_of_body p (Given m) (Given t) (Given tp)
                                 (Given mt))))
  = [forwarded_request w p
       (if truthy m then m else str "phi3:mini")
       (if truthy t then t else 0.7%float)
       (if truthy tp then tp else 0.9%float)
       (if truthy mt then mt else 512)] /\
  requested (fst (chat_get w p (Some m) (Some 0%float) (Some tp) (Some 0)))
  = [POST (OLLAMA_URL w ++ str "/api/generate")
       (VDict [ (str "model", VStr m);
                (str "prompt", VStr p);
                (str "options",
                 VDict [ (str "temperature", VFloat 0%float);
                         (str "top_p", VFloat tp);
                         (str "num_predict", VInt 0) ]) ])
       true (5, 120)] /\
  requested (fst (body_iterator
                    (stream_get w p (Some m) (Some 0%float) (Some tp) (Some 0))))
  = [POST (OLLAMA_URL w ++ str "/api/generate")
       (VDict [ (str "model", VStr m);
                (str "prompt", VStr p);
                (str "options",
                 VDict [ (str "temperature", VFloat 0%float);
                         (str "top_p", VFloat tp);
                         (str "num_predict", VInt 0) ]) ])
       true (5, 120)] /\
  requested (fst (chat_post w (ChatIn_of_body p (Given m) (Given 0%float)
                                 (Given tp) (Given 0))))
  = [POST (OLLAMA_URL w ++ str "/api/generate")
       (VDict [ (str "model", VStr (if truthy m then m else str "phi3:mini"));
                (str "prompt", VStr p);
                (str "options",
                 VDict [ (str "temperature", VFloat 0.7%float);
                         (str "top_p", VFloat (if truthy tp then tp else 0.9%float));
                         (str "num_predict", VInt 512) ]) ])
       true (5, 120)].
Proof.
  unfold chat_get, stream_get. cbn [body_iterator query_default].
  rewrite !chat_post_effective, !requested_chat_full, !requested_chat_stream.
  repeat split.
Qed.

(** ** The model list *)

Lemma models_name_loop (ms : list dict) (names : list value) :
  for_each (map VDict ms) names models_name = ([], Ok (names ++ model_names ms)).
Proof.
  revert names.
  induction ms as [|m ms IH]; intros names; cbn [map for_each model_names flat_map].
  - unfold ret. now rewrite app_nil_r.
  - unfold models_name at 1. cbn [py_get lift bind].
    destruct (dict_lookup m (str "name")) as [v|].
    + cbn [app]. destruct (truthy v).
      * cbn [bind ret app]. rewrite IH. cbn [app]. now rewrite <- app_assoc.
      * cbn [bind ret app]. rewrite IH. reflexivity.
    + cbn [app]. change (truthy VNone) with false. cbn [bind ret app].
      rewrite IH. reflexivity.
Qed.

(** C8.  When the tags call succeeds (an answer whose status is no error
    and whose body is a JSON object, with "models" a list of objects or
    left out), [GET /models] returns "names", the name of each model whose
    "name" field is present and not falsy (for a string: not empty), in
    order, and "raw", the upstream object unchanged.  With no model the
    names are the empty list, and nothing is raised. *)
Theorem models_lists_names (w : world) (r : Response) (d : dict) (ms : list dict) :
  upstream w (tags_call w) = Ok r ->
  ~ 400 <= status_code r < 600 ->
  json r = Ok (VDict d) ->
  dict_lookup d (str "models") = Some (VList (map VDict ms)) \/
  (dict_lookup d (str "models") = None /\ ms = []) ->
  models w =
    ([Requested (tags_call w)],
     Ok (VDict [ (str "names", VList (model_names ms)); (str "raw", VDict d) ])) /\
  (ms = [] ->
   models w =
     ([Requested (tags_call w)],
      Ok (VDict [ (str "names", VList []); (str "raw", VDict d) ]))).
Proof.
  intros Hr Hc Hj Hm.
  assert (Hrun : models w =
                 ([Requested (tags_call w)],
                  Ok (VDict [ (str "names", VList (model_names ms));
                              (str "raw", VDict d) ]))).
  { unfold models, requests_get. fold (tags_call w). rewrite Hr.
    cbn [bind]. rewrite raise_for_status_spec.
    apply status_passes_true in Hc. rewrite Hc, Hj.
    cbn [ret lift bind py_get].
    destruct Hm as [Hm | [Hm ->]]; rewrite Hm; cbn [py_iter bind].
    - rewrite models_name_loop. reflexivity.
    - reflexivity. }
  rewrite Hrun. split; [reflexivity|]. intros ->. reflexivity.
Qed.

(** The sample document lists one name; the document without models lists
    none. *)
Lemma models_lists_names_witness :
  models sample_tags_world =
    ([Requested (tags_call sample_tags_world)],
     Ok (VDict [ (str "names", VList [VStr (str "phi3:mini")]);
                 (str "raw", sample_tags) ])) /\
  models no_models_world =
    ([Requested (tags_call no_models_world)],
     Ok (VDict [ (str "names", VList []);
                 (str "raw", VDict [ (str "models", VList []) ]) ])).
Proof.
  split.
  - refine (proj1 (models_lists_names sample_tags_world (tags_response sample_tags)
                     [ (str "models",
                        VList [ VDict [ (str "name", VStr (str "phi3:mini"));
                                        (str "size", VInt 2176178913) ];
                                VDict [ (str "name", VStr []) ];
                                VDict [ (str "size", VInt 1) ] ]) ]
                     [ [ (str "name", VStr (str "phi3:mini"));
                         (str "size", VInt 2176178913) ];
                       [ (str "name", VStr []) ];
                       [ (str "size", VInt 1) ] ] _ _ _ _)).
    + reflexivity.
    + cbn; lia.
    + reflexivity.
    + left. reflexivity.
  - refine (proj2 (models_lists_names no_models_world
                     (tags_response (VDict [ (str "models", VList []) ]))
                     [ (str "models", VList []) ] [] _ _ _ _) eq_refl).
    + reflexivity.
    + cbn; lia.
    + reflexivity.
    + left. reflexivity.
Defined.

(** A document whose "models" is [null] is no list of models: iterating
    [None] raises [TypeError], which [models] does not catch. *)
Example models_null_raises :
  snd (models (stub (Ok (tags_response (VDict [ (str "models", VNone) ])))))
  = Raise TypeError.
Proof. vm_compute. reflexivity. Qed.

(** ** The tag-listing handlers: [models] and [health] *)

Lemma models_name_quiet (m : value) (names : list value) :
  fst (models_name m names) = [].
Proof.
  unfold models_name. destruct (py_get m (str "name") VNone) as [c|e]; [|reflexivity].
  cbn [lift bind]. destruct (truthy c); reflexivity.
Qed.

Lemma for_each_models_name_quiet (items : list value) (names : list value) :
  fst (for_each items names models_name) = [].
Proof.
  revert names. induction items as [|m items IH]; intros names; [reflexivity|].
  cbn [for_each]. pose proof (models_name_quiet m names) as Hq.
  destruct (models_name m names) as [evs [names'|e]]; cbn [fst] in Hq; subst evs.
  - cbn [bind]. specialize (IH names').
    destruct (for_each items names' models_name) as [evs' o].
    cbn [fst] in IH. subst evs'. reflexivity.
  - reflexivity.
Qed.

Lemma for_each_models_name_run (items : list value) :
  for_each items [] models_name = ([], snd (for_each items [] models_name)).
Proof.
  pose proof (for_each_models_name_quiet items []) as Hq.
  destruct (for_each items [] models_name) as [evs o]. cbn [fst] in Hq.
  now subst evs.
Qed.

Lemma models_run (w : world) :
  models w =
  ([Requested (tags_call w)],
   match listed (upstream w (tags_call w)) with
   | Ok (names, data) =>
       Ok (VDict [ (str "names", VList names); (str "raw", data) ])
   | Raise (RequestException _ msg) =>
       Raise (HTTPException 502 (str "Ollama error: " ++ msg))
   | Raise e => Raise e
   end).
Proof.
  unfold models, requests_get, listed. fold (tags_call w).
  destruct (upstream w (tags_call w)) as [r|e].
  - cbn [bind]. rewrite raise_for_status_spec.
    destruct (status_passes r); [|reflexivity].
    cbn [ret bind lift].
    destruct (json r) as [data|e]; [|destruct e; reflexivity].
    cbn [bind].
    destruct (py_get data (str "models") (VList [])) as [ms|e];
      [|destruct e; reflexivity].
    cbn [bind].
    destruct (py_iter ms) as [items|e]; [|destruct e; reflexivity].
    cbn [bind]. rewrite for_each_models_name_run.
    destruct (snd (for_each items [] models_name)) as [names|e];
      [reflexivity|destruct e; reflexivity].
  - destruct e; reflexivity.
Qed.

Lemma health_run (describe : exn -> pystr) (w : world) :
  health describe w =
  ([Requested (health_call w)],
   match listed (upstream w (health_call w)) with
   | Ok (names, _) =>
       Ok (inl (VDict [ (str "ok", VBool true);
                        (str "ollama_url", VStr (OLLAMA_URL w));
                        (str "models", VList names) ]))
   | Raise e =>
       Ok (inr {| response_status := 502;
                  content := VDict [ (str "ok", VBool false);
                                     (str "error", VStr (exn_text describe e)) ] |})
   end).
Proof.
  unfold health, requests_get, listed. fold (health_call w).
  destruct (upstream w (health_call w)) as [r|e]; [|reflexivity].
  cbn [bind]. rewrite raise_for_status_spec.
  destruct (status_passes r); [|reflexivity].
  cbn [ret bind lift].
  destruct (json r) as [data|e]; [|reflexivity].
  cbn [bind].
  destruct (py_get data (str "models") (VList [])) as [ms|e]; [|reflexivity].
  cbn [bind].
  destruct (py_iter ms) as [items|e]; [|reflexivity].
  cbn [bind]. rewrite for_each_models_name_run.
  destruct (snd (for_each items [] models_name)) as [names|e]; reflexivity.
Qed.

(** Every name the comprehension keeps is truthy, whatever the items. *)
Lemma for_each_models_name_truthy (items : list value) (acc names : list value) :
  Forall (fun v => truthy v = true) acc ->
  snd (for_each items acc models_name) = Ok names ->
  Forall (fun v => truthy v = true) names.
Proof.
  revert acc. induction items as [|m items IH]; intros acc Hacc; cbn [for_each].
  - intros [= <-]. exact Hacc.
  - unfold models_name at 1.
    destruct (py_get m (str "name") VNone) as [c|e]; [|discriminate].
    cbn [lift bind app]. destruct (truthy c) eqn:Hc.
    + cbn [bind ret app].
      destruct (for_each items (acc ++ [c]) models_name) as [evs o] eqn:Hrun.
      cbn [snd]. intros ->.
      apply (IH (acc ++ [c])).
      * apply Forall_app. split; [exact Hacc|]. constructor; [exact Hc|constructor].
      * now rewrite Hrun.
    + cbn [bind ret app].
      destruct (for_each items acc models_name) as [evs o] eqn:Hrun.
      cbn [snd]. intros ->.
      apply (IH acc Hacc). now rewrite Hrun.
Qed.

Lemma listed_truthy (o : outcome Response) (names : list value) (data : value) :
  listed o = Ok (names, data) ->
  Forall (fun v => truthy v = true) names /\
  exists r, o = Ok r /\ json r = Ok data.
Proof.
  unfold listed. destruct o as [r|e]; [|discriminate].
  destruct (status_passes r); [|discriminate].
  destruct (json r) as [d|e] eqn:Hj; [|discriminate].
  destruct (py_get d (str "models") (VList [])) as [ms|e]; [|discriminate].
  destruct (py_iter ms) as [items|e]; [|discriminate].
  destruct (snd (for_each items [] models_name)) as [ns|e] eqn:Hn; [|discriminate].
  intros [= <- <-]. split.
  - exact (for_each_models_name_truthy items [] ns (Forall_nil _) Hn).
  - exists r. now split.
Qed.

Lemma listed_failure (w : world) (c : call) (cls : requests_class) (msg : pystr) :
  tags_failure w c cls msg ->
  listed (upstream w c) = Raise (RequestException cls msg).
Proof.
  intros [cls' msg' Hs | r Hr Hc | r cls' msg' Hr Hc Hj]; unfold listed.
  - now rewrite Hs.
  - rewrite Hr. apply status_passes_false in Hc. now rewrite Hc.
  - rewrite Hr. apply status_passes_true in Hc. now rewrite Hc, Hj.
Qed.

(** X1.  [GET /models] answers every failure of the tags call with status
    502 and the detail "Ollama error: " followed by the message of the
    requests exception: a request that raises, a status from 400 to 599, a
    body [r.json()] rejects.  A timeout is no exception to this: unlike
    [/chat], [/models] has no 504. *)
Theorem models_failure_is_502 (w : world) (cls : requests_class) (msg : pystr) :
  tags_failure w (tags_call w) cls msg ->
  models w =
    ([Requested (tags_call w)],
     Raise (HTTPException 502 (str "Ollama error: " ++ msg))) /\
  http_status (models w) = 502.
Proof.
  intros H. rewrite models_run, (listed_failure _ _ _ _ H). split; reflexivity.
Qed.

(** A tags call whose read times out, and a tags document that is not
    JSON: status 502 both times. *)
Lemma models_failure_is_502_witness :
  http_status (models silent_world) = 502 /\
  models not_json_world =
    ([Requested (tags_call not_json_world)],
     Raise (HTTPException 502
              (str "Ollama error: Expecting value: line 1 column 1 (char 0)"))).
Proof.
  split.
  - refine (proj2 (models_failure_is_502 silent_world ReadTimeout
                     (str "Read timed out. (read timeout=120)") _)).
    apply tags_fails_on_send. reflexivity.
  - refine (proj1 (models_failure_is_502 not_json_world RequestsJSONDecodeError
                     (str "Expecting value: line 1 column 1 (char 0)") _)).
    apply (tags_fails_on_json _ _
             {| status_code := 200;
                reason := str "OK";
                url := str "http://127.0.0.1:11434/api/tags";
                iter_lines := EOF;
                json := Raise (RequestException RequestsJSONDecodeError
                                 (str "Expecting value: line 1 column 1 (char 0)")) |}).
    + reflexivity.
    + cbn; lia.
    + reflexivity.
Defined.

(** X2.  [GET /health] never raises.  It sends one request, the tags call
    with a timeout of ten seconds, and then either returns the dictionary
    with "ok" true, the upstream URL and the model names, all of them
    truthy, or returns a [JSONResponse] with status 502 whose content has
    "ok" false and the text of the exception: of any exception, not only of
    those of requests. *)
Theorem health_never_raises (describe : exn -> pystr) (w : world) :
  fst (health describe w) = [Requested (health_call w)] /\
  ((exists names : list value,
      Forall (fun v => truthy v = true) names /\
      snd (health describe w)
      = Ok (inl (VDict [ (str "ok", VBool true);
                         (str "ollama_url", VStr (OLLAMA_URL w));
                         (str "models", VList names) ]))) \/
   (exists e : exn,
      snd (health describe w)
      = Ok (inr {| response_status := 502;
                   content := VDict [ (str "ok", VBool false);
                                      (str "error", VStr (exn_text describe e)) ] |}))).
Proof.
  rewrite health_run. split; [reflexivity|]. cbn [snd].
  destruct (listed (upstream w (health_call w))) as [[names data]|e] eqn:Hl.
  - left. exists names. split; [|reflexivity].
    exact (proj1 (listed_truthy _ _ _ Hl)).
  - right. now exists e.
Qed.

(** X3.  When the upstream answers the tags call of [health] as it
    answers the one of [models] (they differ in their timeout), the two
    handlers agree: if [models] returns, its result holds "names" and
    "raw", and [health] returns the same names under "models"; if [models]
    raises, [health] returns its response with status 502. *)
Theorem health_agrees_with_models (describe : exn -> pystr) (w : world) :
  upstream w (health_call w) = upstream w (tags_call w) ->
  (forall res : value,
     snd (models w) = Ok res ->
     exists (names : list value) (raw : value),
       res = VDict [ (str "names", VList names); (str "raw", raw) ] /\
       snd (health describe w)
       = Ok (inl (VDict [ (str "ok", VBool true);
                          (str "ollama_url", VStr (OLLAMA_URL w));
                          (str "models", VList names) ]))) /\
  (forall e : exn,
     snd (models w) = Raise e ->
     exists e' : exn,
       snd (health describe w)
       = Ok (inr {| response_status := 502;
                    content := VDict [ (str "ok", VBool false);
                                       (str "error", VStr (exn_text describe e')) ] |})).
Proof.
  intros Hsame. rewrite models_run, health_run, Hsame. cbn [snd].
  destruct (listed (upstream w (tags_call w))) as [[names data]|e0]; split.
  - intros res [= <-]. now exists names, data.
  - intros e He. discriminate He.
  - intros res Hres. destruct e0; discriminate Hres.
  - intros e _. now exists e0.
Qed.

(** On the sample document both handlers list the one named model. *)
Lemma health_agrees_with_models_witness :
  snd (models sample_tags_world)
  = Ok (VDict [ (str "names", VList [VStr (str "phi3:mini")]);
                (str "raw", sample_tags) ]) /\
  exists (names : list value) (raw : value),
    VDict [ (str "names", VList [VStr (str "phi3:mini")]); (str "raw", sample_tags) ]
    = VDict [ (str "names", VList names); (str "raw", raw) ] /\
    snd (health (fun _ => []) sample_tags_world)
    = Ok (inl (VDict [ (str "ok", VBool true);
                       (str "ollama_url", VStr (OLLAMA_URL sample_tags_world));
                       (str "models", VList names) ])).
Proof.
  assert (Hm : snd (models sample_tags_world)
               = Ok (VDict [ (str "names", VList [VStr (str "phi3:mini")]);
                             (str "raw", sample_tags) ]))
    by (vm_compute; reflexivity).
  split; [exact Hm|].
  exact (proj1 (health_agrees_with_models (fun _ => []) sample_tags_world eq_refl)
           _ Hm).
Defined.

(** X4.  Whatever the upstream document, a result of [GET /models] has
    exactly the keys "names" and "raw"; every listed name is truthy (no
    [None], no empty string, no zero is ever listed), and "raw" is the
    document [r.json()] returned. *)
Theorem models_names_are_truthy (w : world) (res : value) :
  snd (models w) = Ok res ->
  exists (names : list value) (r : Response) (data : value),
    res = VDict [ (str "names", VList names); (str "raw", data) ] /\
    Forall (fun v => truthy v = true) names /\
    upstream w (tags_call w) = Ok r /\
    json r = Ok data.
Proof.
  rewrite models_run. cbn [snd].
  destruct (listed (upstream w (tags_call w))) as [[names data]|e] eqn:Hl.
  - intros [= <-]. destruct (listed_truthy _ _ _ Hl) as [Ht [r [Hr Hj]]].
    now exists names, r, data.
  - intros H. destruct e; discriminate H.
Qed.

Lemma models_names_are_truthy_witness :
  exists (names : list value) (r : Response) (data : value),
    VDict [ (str "names", VList [VStr (str "phi3:mini")]); (str "raw", sample_tags) ]
    = VDict [ (str "names", VList names); (str "raw", data) ] /\
    Forall (fun v => truthy v = true) names /\
    upstream sample_tags_world (tags_call sample_tags_world) = Ok r /\
    json r = Ok data.
Proof.
  apply (models_names_are_truthy sample_tags_world).
  vm_compute. reflexivity.
Defined.

(** ** More on the loops and on what leaves the handlers *)

Lemma py_getitem_after_in (obj : value) (k : pystr) (e : exn) :
  py_in k obj = Ok true -> py_getitem obj k = Raise e -> e = TypeError.
Proof.
  destruct obj; cbn [py_in py_getitem]; try (intros _ [= <-]; reflexivity).
  destruct (dict_lookup d k); [discriminate|]. intros H. discriminate H.
Qed.

(** [json.loads] raises one of three exceptions, if any. *)
Lemma json_loads_raises (lim : interpreter) (s : pystr) (e : exn) :
  json_loads lim s = Raise e ->
  e = JSONDecodeError \/ e = ValueError \/ e = RecursionError.
Proof.
  unfold json_loads.
  destruct (json_parse lim s) as [v|[| |]]; [discriminate| | |];
    intros [= <-]; auto.
Qed.

Lemma line_fragment_raises (lim : interpreter) (line : bytes) (e : exn) :
  line_fragment lim line = Raise e ->
  e = TypeError \/ e = UnicodeDecodeError \/ e = ValueError \/ e = RecursionError.
Proof.
  destruct line as [|b line]; [discriminate|].
  unfold line_fragment.
  destruct (utf8_decode (b :: line)) as [s|]; [|intros [= <-]; auto].
  destruct (json_loads lim s) as [obj|e'] eqn:Hj.
  - destruct (py_in (str "response") obj) as [[|]|e'] eqn:Hin.
    + destruct (py_getitem obj (str "response")) as [v|e'] eqn:Hget; [discriminate|].
      intros [= <-]. left. exact (py_getitem_after_in _ _ _ Hin Hget).
    + discriminate.
    + intros [= <-]. left. exact (py_in_raises _ _ _ Hin).
  - destruct (json_loads_raises _ _ _ Hj) as [-> | [-> | ->]];
      [discriminate| |]; intros [= <-]; auto.
Qed.

(** X5.  One turn of the loop of [_chat_full], under any limits of the
    interpreter, sends nothing upstream and does one of six things: it
    leaves the chunks as they are, it appends one value behind them, or it
    aborts with [TypeError], with [UnicodeDecodeError], with the
    [ValueError] of an integer literal of too many digits, or with the
    [RecursionError] of containers nested too deep.  It never raises
    [JSONDecodeError] or [KeyError], and never touches the chunks gathered
    before.  Each of the four exceptions is raised by some line: the lines
    [5], one byte 0xFF, 4301 digits and 1001 opening brackets, under the
    limits of an interpreter as installed. *)
Theorem chat_full_line_cases (lim : interpreter) (line : bytes) (chunks : list value) :
  fst (chat_full_line lim line chunks) = [] /\
  (snd (chat_full_line lim line chunks) = Ok chunks \/
   (exists v : value, snd (chat_full_line lim line chunks) = Ok (chunks ++ [v])) \/
   snd (chat_full_line lim line chunks) = Raise TypeError \/
   snd (chat_full_line lim line chunks) = Raise UnicodeDecodeError \/
   snd (chat_full_line lim line chunks) = Raise ValueError \/
   snd (chat_full_line lim line chunks) = Raise RecursionError) /\
  snd (chat_full_line default_limits (dq "5") chunks) = Raise TypeError /\
  snd (chat_full_line default_limits [xff] chunks) = Raise UnicodeDecodeError /\
  snd (chat_full_line default_limits (repeat x31 4301) chunks) = Raise ValueError /\
  snd (chat_full_line default_limits (repeat x5b 1001) chunks) = Raise RecursionError.
Proof.
  rewrite !chat_full_line_spec. split; [reflexivity|]. cbn [snd]. split.
  - destruct (line_fragment lim line) as [[v|]|e] eqn:Hl.
    + right. left. now exists v.
    + now left.
    + destruct (line_fragment_raises _ _ _ Hl) as [-> | [-> | [-> | ->]]]; auto 7.
  - assert (H1 : line_fragment default_limits (dq "5") = Raise TypeError)
      by (vm_compute; reflexivity).
    assert (H2 : line_fragment default_limits [xff] = Raise UnicodeDecodeError)
      by (vm_compute; reflexivity).
    assert (H3 : line_fragment default_limits (repeat x31 4301) = Raise ValueError)
      by (vm_compute; reflexivity).
    assert (H4 : line_fragment default_limits (repeat x5b 1001) = Raise RecursionError)
      by (vm_compute; reflexivity).
    rewrite H1, H2, H3, H4. repeat split.
Qed.

(** X6.  Every outcome of [_chat_full] is one of these: a result that
    echoes the five parameters beside some response text; the
    [HTTPException] 504 "Timeout talking to Ollama"; an [HTTPException] 502
    whose detail starts with "Ollama error: "; or an exception that is not
    one of requests.  No requests exception ever leaves the handler. *)
Theorem chat_full_outcomes (w : world) (p m : pystr) (t tp : float) (mt : Z) :
  (exists s : pystr,
     snd (_chat_full w p m t tp mt) = Ok (chat_result p m t tp mt s)) \/
  snd (_chat_full w p m t tp mt)
  = Raise (HTTPException 504 (str "Timeout talking to Ollama")) \/
  (exists msg : pystr,
     snd (_chat_full w p m t tp mt)
     = Raise (HTTPException 502 (str "Ollama error: " ++ msg))) \/
  (exists e : exn,
     snd (_chat_full w p m t tp mt) = Raise e /\
     forall (cls : requests_class) (msg : pystr), e <> RequestException cls msg).
Proof.
  assert (Hex : forall e,
             Raise (A := value) (chat_full_except e)
             = Raise (HTTPException 504 (str "Timeout talking to Ollama")) \/
             (exists msg, Raise (A := value) (chat_full_except e)
                          = Raise (HTTPException 502 (str "Ollama error: " ++ msg))) \/
             (exists e', Raise (A := value) (chat_full_except e) = Raise e' /\
                         forall cls msg, e' <> RequestException cls msg)).
  { intros e. destruct e as [cls msg| | | | | | | |]; cbn [chat_full_except];
      try (right; right; eexists; split; [reflexivity|discriminate]).
    destruct (is_Timeout cls); [now left|]. right. left. now exists msg. }
  rewrite chat_full_run. cbn [snd].
  destruct (upstream w (generate_call w p m t tp mt)) as [r|e].
  - destruct (status_passes r).
    + destruct (fragments (limits w) (iter_lines r)) as [fs [e|]].
      * right. apply Hex.
      * destruct (str_join [] fs) as [s|e] eqn:Hj.
        -- left. now exists s.
        -- right. right. right. exists e. split; [reflexivity|].
           rewrite (str_join_raises _ _ _ Hj). discriminate.
    + right. right. left. now exists (http_error_message r).
  - right. apply Hex.
Qed.

(** X7.  [_chat_stream] sends its one request before it yields anything,
    and sends no other; it ends normally or with an exception that is not
    one of requests: a requests exception never leaves the generator. *)
Theorem chat_stream_outcomes (w : world) (p m : pystr) (t tp : float) (mt : Z) :
  fst (_chat_stream w p m t tp mt)
  = Requested (generate_call w p m t tp mt)
      :: map Yielded (yielded (fst (_chat_stream w p m t tp mt))) /\
  (snd (_chat_stream w p m t tp mt) = Ok tt \/
   exists e : exn,
     snd (_chat_stream w p m t tp mt) = Raise e /\
     forall (cls : requests_class) (msg : pystr), e <> RequestException cls msg).
Proof.
  assert (Hex : forall fs e,
             let run := stream_except
                          (Requested (generate_call w p m t tp mt) :: map Yielded fs) e in
             fst run = Requested (generate_call w p m t tp mt)
                         :: map Yielded (yielded (fst run)) /\
             (snd run = Ok tt \/
              exists e', snd run = Raise e' /\
                         forall cls msg, e' <> RequestException cls msg)).
  { intros fs e.
    destruct e as [cls msg| | | | | | | |]; cbn [stream_except fst snd yielded];
      rewrite ?yielded_app; cbn [yielded]; rewrite ?yielded_map_Yielded;
      try (split; [reflexivity|right; eexists; split; [reflexivity|discriminate]]).
    rewrite map_app. split; [reflexivity|now left]. }
  rewrite chat_stream_run.
  destruct (upstream w (generate_call w p m t tp mt)) as [r|e].
  - destruct (status_passes r).
    + destruct (fragments (limits w) (iter_lines r)) as [fs [e|]].
      * apply Hex.
      * cbn [fst snd yielded]. rewrite yielded_map_Yielded. split; [reflexivity|now left].
    + apply (Hex []).
  - apply (Hex []).
Qed.

(** ** Streams taken apart *)

Lemma skippable_fragment (lim : interpreter) (line : bytes) :
  skippable lim line -> line_fragment lim line = Ok None.
Proof.
  intros [-> | [[s [Hd Hp]] | [s [d [Hd [Hp Hl]]]]]].
  - reflexivity.
  - exact (proj1 (proj2 (skipped_lines lim line s)) Hd Hp).
  - exact (proj2 (proj2 (skipped_lines lim line s)) d Hd Hp Hl).
Qed.

Lemma stream_of_app (a b : list bytes) :
  stream_of (a ++ b) = lines_then a (stream_of b).
Proof.
  induction a as [|l a IH]; cbn [app stream_of lines_then]; [reflexivity|].
  now rewrite IH.
Qed.

Lemma fragments_skip (lim : interpreter) (a : list bytes) (l : bytes) (rest : line_stream) :
  line_fragment lim l = Ok None ->
  fragments lim (lines_then a (Line l rest)) = fragments lim (lines_then a rest).
Proof.
  intros Hl. induction a as [|x a IH]; cbn [lines_then fragments].
  - now rewrite Hl.
  - now rewrite IH.
Qed.

Lemma fragments_lines_then (lim : interpreter) (a : list bytes) (rest : line_stream) (fa : list value) :
  fragments lim (stream_of a) = (fa, None) ->
  fragments lim (lines_then a rest)
  = (fa ++ fst (fragments lim rest), snd (fragments lim rest)).
Proof.
  revert fa. induction a as [|x a IH]; intros fa; cbn [stream_of lines_then fragments].
  - intros [= <-]. cbn [app]. now destruct (fragments lim rest).
  - destruct (line_fragment lim x) as [[v|]|e].
    + destruct (fragments lim (stream_of a)) as [fs oe]. intros [= <- ->].
      rewrite (IH fs eq_refl). reflexivity.
    + apply IH.
    + discriminate.
Qed.

(** Behind a stub, the two handlers see of the body only its fragments. *)
Lemma chat_full_same_fragments (lim : interpreter) (r : Response)
    (it1 it2 : line_stream) (p m : pystr) (t tp : float) (mt : Z) :
  fragments lim it1 = fragments lim it2 ->
  _chat_full (stub_under lim (Ok (with_lines r it1))) p m t tp mt
  = _chat_full (stub_under lim (Ok (with_lines r it2))) p m t tp mt.
Proof.
  intros H. rewrite !chat_full_run.
  cbn [stub_under upstream limits with_lines iter_lines]. unfold status_passes.
  cbn [with_lines status_code]. now rewrite H.
Qed.

Lemma chat_stream_same_fragments (lim : interpreter) (r : Response)
    (it1 it2 : line_stream) (p m : pystr) (t tp : float) (mt : Z) :
  fragments lim it1 = fragments lim it2 ->
  _chat_stream (stub_under lim (Ok (with_lines r it1))) p m t tp mt
  = _chat_stream (stub_under lim (Ok (with_lines r it2))) p m t tp mt.
Proof.
  intros H. rewrite !chat_stream_run.
  cbn [stub_under upstream limits with_lines iter_lines]. unfold status_passes.
  cbn [with_lines status_code]. now rewrite H.
Qed.

(** X8.  Under any limits of the interpreter, a line that is empty, on
    whose text [json.loads] raises [json.JSONDecodeError], or for which
    [json.loads] returns a JSON object without "response", can stand
    anywhere in the body, also before a failure of the transport, without
    any effect on what [/chat] returns or raises and on what [/stream]
    emits.  A line on which [json.loads] raises [ValueError] or
    [RecursionError] is none of these. *)
Theorem skippable_line_changes_nothing (lim : interpreter) (r : Response)
    (a : list bytes) (l : bytes) (rest : line_stream) (p m : pystr)
    (t tp : float) (mt : Z) :
  skippable lim l ->
  _chat_full (stub_under lim (Ok (with_lines r (lines_then a (Line l rest)))))
    p m t tp mt
  = _chat_full (stub_under lim (Ok (with_lines r (lines_then a rest)))) p m t tp mt /\
  _chat_stream (stub_under lim (Ok (with_lines r (lines_then a (Line l rest)))))
    p m t tp mt
  = _chat_stream (stub_under lim (Ok (with_lines r (lines_then a rest)))) p m t tp mt.
Proof.
  intros Hs. apply skippable_fragment in Hs. split.
  - apply chat_full_same_fragments. now apply fragments_skip.
  - apply chat_stream_same_fragments. now apply fragments_skip.
Qed.

(** A line on which [json.loads] raises another exception than
    [json.JSONDecodeError] is not passed over. *)
Lemma raising_line_is_not_skippable (lim : interpreter) (line : bytes)
    (s : pystr) (e : exn) :
  utf8_decode line = Some s -> json_loads lim s = Raise e ->
  e <> JSONDecodeError -> ~ skippable lim line.
Proof.
  intros Hd Hj He [-> | [[s' [Hs Hp]] | [s' [d [Hs [Hp _]]]]]].
  - cbn in Hd. injection Hd as <-. apply He.
    cbv in Hj. now injection Hj as <-.
  - rewrite Hd in Hs. injection Hs as <-. rewrite Hj in Hp.
    injection Hp as ->. now apply He.
  - rewrite Hd in Hs. injection Hs as <-. rewrite Hj in Hp. discriminate Hp.
Qed.

(** A JSON object without "response" whose value is an integer of 4301
    digits, or is nested 1000 arrays deep, is not passed over by an
    interpreter as installed. *)
Lemma lines_over_the_limits_are_not_skippable :
  ~ skippable default_limits (dq "{'x':" ++ repeat x31 4301 ++ dq "}") /\
  ~ skippable default_limits
      (dq "{'x':" ++ repeat x5b 1000 ++ repeat x5d 1000 ++ dq "}").
Proof.
  split.
  - eapply (raising_line_is_not_skippable _ _ _ ValueError);
      [vm_compute; reflexivity|vm_compute; reflexivity|discriminate].
  - eapply (raising_line_is_not_skippable _ _ _ RecursionError);
      [vm_compute; reflexivity|vm_compute; reflexivity|discriminate].
Qed.

(** Such a line between two fragments ends the request: [/chat] raises the
    [ValueError], which no clause catches, and [/stream] emits "Hel" and
    then raises it. *)
Example long_integer_line_aborts :
  snd (_chat_full long_integer_world (str "hi") (str "phi3:mini")
         0.7%float 0.9%float 512)
  = Raise ValueError /\
  http_status (_chat_full long_integer_world (str "hi") (str "phi3:mini")
                 0.7%float 0.9%float 512)
  = 500 /\
  yielded (fst (_chat_stream long_integer_world (str "hi") (str "phi3:mini")
                  0.7%float 0.9%float 512))
  = [VStr (str "Hel")] /\
  snd (_chat_stream long_integer_world (str "hi") (str "phi3:mini")
         0.7%float 0.9%float 512)
  = Raise ValueError.
Proof.
  split; [vm_compute; reflexivity|]. split; [vm_compute; reflexivity|].
  split; vm_compute; reflexivity.
Qed.

(** The text "not json" between the two fragments of the example: the
    response is "Hello" all the same. *)
Lemma skippable_line_changes_nothing_witness :
  skippable default_limits (dq "not json") /\
  snd (_chat_full
         (stub (Ok (with_lines (generate_response 200 "OK" EOF)
                      (lines_then [dq "{'response':'Hel'}"]
                         (Line (dq "not json")
                            (stream_of [dq "{'response':'lo'}"]))))))
         (str "hi") (str "phi3:mini") 0.7%float 0.9%float 512)
  = Ok (chat_result (str "hi") (str "phi3:mini") 0.7%float 0.9%float 512
          (str "Hello")).
Proof.
  assert (Hs : skippable default_limits (dq "not json")).
  { right. left. eexists. split; [vm_compute; reflexivity|]. vm_compute. reflexivity. }
  split; [exact Hs|].
  change (stub ?a) with (stub_under default_limits a).
  rewrite (proj1 (skippable_line_changes_nothing default_limits
                    (generate_response 200 "OK" EOF)
                    [dq "{'response':'Hel'}"] (dq "not json")
                    (stream_of [dq "{'response':'lo'}"])
                    (str "hi") (str "phi3:mini") 0.7%float 0.9%float 512 Hs)).
  vm_compute. reflexivity.
Defined.

(** X9.  The relay never takes back what it has emitted: when the lines [a]
    are handled without an exception, a body that goes on after them, in
    whatever way, makes [/stream] emit the fragments of [a] first and then
    what it emits for the continuation alone, and end as it ends there. *)
Theorem stream_emits_prefix_first (r : Response) (a : list bytes)
    (rest : line_stream) (fa : list value) (p m : pystr) (t tp : float) (mt : Z) :
  ~ 400 <= status_code r < 600 ->
  fragments default_limits (stream_of a) = (fa, None) ->
  yielded (fst (_chat_stream (stub (Ok (with_lines r (lines_then a rest))))
                  p m t tp mt))
  = fa ++ yielded (fst (_chat_stream (stub (Ok (with_lines r rest))) p m t tp mt)) /\
  snd (_chat_stream (stub (Ok (with_lines r (lines_then a rest)))) p m t tp mt)
  = snd (_chat_stream (stub (Ok (with_lines r rest))) p m t tp mt).
Proof.
  intros Hc Hf. rewrite !chat_stream_run.
  cbn [stub stub_under upstream limits with_lines iter_lines].
  assert (Hp : forall it, status_passes (with_lines r it) = true).
  { intros it. apply status_passes_true. exact Hc. }
  rewrite !Hp, (fragments_lines_then _ _ _ _ Hf).
  destruct (fragments default_limits rest) as [fb [e|]]; cbn [fst snd].
  - destruct e as [cls msg| | | | | | | |]; cbn [stream_except fst snd yielded];
      rewrite ?yielded_app, ?yielded_map_Yielded; cbn [yielded];
      rewrite ?yielded_map_Yielded, <- ?app_assoc; split; reflexivity.
  - cbn [yielded]. rewrite !yielded_map_Yielded. split; reflexivity.
Qed.

(** "Hel" is handled; then the read times out: "Hel" comes first, the
    notice of the continuation after it. *)
Lemma stream_emits_prefix_first_witness :
  yielded (fst (_chat_stream
                  (stub (Ok (with_lines (generate_response 200 "OK" EOF)
                               (lines_then [dq "{'response':'Hel'}"]
                                  (Broken (RequestException ReadTimeout
                                             (str "Read timed out.")))))))
                  (str "hi") (str "phi3:mini") 0.7%float 0.9%float 512))
  = [VStr (str "Hel")]
    ++ yielded (fst (_chat_stream
                       (stub (Ok (with_lines (generate_response 200 "OK" EOF)
                                    (Broken (RequestException ReadTimeout
                                               (str "Read timed out."))))))
                       (str "hi") (str "phi3:mini") 0.7%float 0.9%float 512)).
Proof.
  refine (proj1 (stream_emits_prefix_first (generate_response 200 "OK" EOF)
                   [dq "{'response':'Hel'}"]
                   (Broken (RequestException ReadTimeout (str "Read timed out.")))
                   [VStr (str "Hel")]
                   (str "hi") (str "phi3:mini") 0.7%float 0.9%float 512 _ _)).
  - cbn; lia.
  - vm_compute. reflexivity.
Defined.

Lemma chat_full_stub_returns (r : Response) (it : line_stream) (p m : pystr)
    (t tp : float) (mt : Z) (s : pystr) :
  snd (_chat_full (stub (Ok (with_lines r it))) p m t tp mt)
  = Ok (chat_result p m t tp mt s) ->
  status_passes r = true /\
  exists fs : list pystr,
    fragments default_limits it = (map VStr fs, None) /\ s = List.concat fs.
Proof.
  rewrite chat_full_run. cbn [snd stub stub_under upstream limits with_lines iter_lines].
  unfold status_passes at 1. cbn [with_lines status_code].
  fold (status_passes r).
  destruct (status_passes r); [|discriminate].
  destruct (fragments default_limits it) as [vs [e|]]; [discriminate|].
  destruct (str_join [] vs) as [s'|e] eqn:Hj; [|discriminate].
  unfold chat_result. intros [= <-]. split; [reflexivity|].
  destruct (str_join_concat _ _ Hj) as [fs [-> ->]]. now exists fs.
Qed.

(** X10.  The aggregation composes: when [/chat] returns the response [sa]
    for a body with the lines [a], and [sb] for a body with the lines [b],
    it returns [sa] followed by [sb] for the body with the lines of [a]
    followed by those of [b]. *)
Theorem chat_response_of_appended_bodies (r : Response) (a b : list bytes)
    (sa sb : pystr) (p m : pystr) (t tp : float) (mt : Z) :
  snd (_chat_full (stub (Ok (with_lines r (stream_of a)))) p m t tp mt)
  = Ok (chat_result p m t tp mt sa) ->
  snd (_chat_full (stub (Ok (with_lines r (stream_of b)))) p m t tp mt)
  = Ok (chat_result p m t tp mt sb) ->
  snd (_chat_full (stub (Ok (with_lines r (stream_of (a ++ b))))) p m t tp mt)
  = Ok (chat_result p m t tp mt (sa ++ sb)).
Proof.
  intros Ha Hb.
  destruct (chat_full_stub_returns _ _ _ _ _ _ _ _ Ha) as [Hp [fa [Hfa ->]]].
  destruct (chat_full_stub_returns _ _ _ _ _ _ _ _ Hb) as [_ [fb [Hfb ->]]].
  rewrite chat_full_run. cbn [snd stub stub_under upstream limits with_lines iter_lines].
  unfold status_passes at 1. cbn [with_lines status_code].
  fold (status_passes r). rewrite Hp.
  rewrite stream_of_app, (fragments_lines_then _ _ _ _ Hfa), Hfb. cbn [fst snd].
  rewrite <- map_app, str_join_strings, concat_app. reflexivity.
Qed.

(** "Hel" alone, "lo" alone, and the two lines one after the other. *)
Lemma chat_response_of_appended_bodies_witness :
  snd (_chat_full
         (stub (Ok (with_lines (generate_response 200 "OK" EOF)
                      (stream_of ([dq "{'response':'Hel'}"]
                                  ++ [dq "{'response':'lo'}"])))))
         (str "hi") (str "phi3:mini") 0.7%float 0.9%float 512)
  = Ok (chat_result (str "hi") (str "phi3:mini") 0.7%float 0.9%float 512
          (str "Hel" ++ str "lo")).
Proof.
  apply (chat_response_of_appended_bodies (generate_response 200 "OK" EOF)
           [dq "{'response':'Hel'}"] [dq "{'response':'lo'}"]
           (str "Hel") (str "lo")); vm_compute; reflexivity.
Defined.

(** ** The two forms of [/chat] *)

(** X11.  [POST /chat] and [GET /chat] do the same thing, request sent and
    result alike, when the body gives every parameter a truthy value and the
    query gives the same values; and when both give the prompt only. *)
Theorem chat_post_agrees_with_chat_get (w : world) (p m : pystr) (t tp : float)
    (mt : Z) :
  truthy m = true -> truthy t = true -> truthy tp = true -> truthy mt = true ->
  chat_post w (ChatIn_of_body p (Given m) (Given t) (Given tp) (Given mt))
  = chat_get w p (Some m) (Some t) (Some tp) (Some mt) /\
  chat_post w (ChatIn_of_body p Absent Absent Absent Absent)
  = chat_get w p None None None None.
Proof.
  intros Hm Ht Htp Hmt. rewrite !chat_post_effective.
  unfold chat_get. cbn [post_parameter query_default].
  now rewrite Hm, Ht, Htp, Hmt.
Qed.

Lemma chat_post_agrees_with_chat_get_witness :
  chat_post hello_world
    (ChatIn_of_body (str "hi") (Given (str "llama3")) (Given 0.2%float)
       (Given 1%float) (Given 64))
  = chat_get hello_world (str "hi") (Some (str "llama3")) (Some 0.2%float)
      (Some 1%float) (Some 64).
Proof.
  refine (proj1 (chat_post_agrees_with_chat_get hello_world (str "hi")
                   (str "llama3") 0.2%float 1%float 64 _ _ _ _));
    vm_compute; reflexivity.
Defined.

(** ** The upstream URL *)

Lemma lstrip_slash_head (s : pystr) (rest : pystr) :
  lstrip_slash s <> 47%N :: rest.
Proof.
  induction s as [|c s IH]; cbn [lstrip_slash]; [discriminate|].
  destruct (N.eq_dec c 47) as [-> | Hc]; [exact IH|].
  assert (Hs : lstrip_slash (c :: s) = c :: s).
  { cbn [lstrip_slash]. destruct c as [|q]; [reflexivity|].
    do 6 (destruct q as [q|q|]; try reflexivity). congruence. }
  cbn [lstrip_slash] in Hs. rewrite Hs. intros [= -> _]. now apply Hc.
Qed.

Lemma lstrip_slash_run (s : pystr) :
  exists k : nat, s = repeat 47%N k ++ lstrip_slash s.
Proof.
  induction s as [|c s [k IH]].
  - now exists 0%nat.
  - destruct (N.eq_dec c 47) as [-> | Hc].
    + exists (S k). cbn [lstrip_slash repeat app]. now rewrite <- IH.
    + exists 0%nat. cbn [repeat app]. symmetry.
      cbn [lstrip_slash]. destruct c as [|q]; [reflexivity|].
      do 6 (destruct q as [q|q|]; try reflexivity). congruence.
Qed.

Lemma rev_repeat (k : nat) : rev (repeat 47%N k) = repeat 47%N k.
Proof.
  induction k as [|k IH]; [reflexivity|].
  cbn [repeat rev]. rewrite IH. clear IH.
  induction k as [|k IH]; [reflexivity|]. cbn [repeat app]. now rewrite IH.
Qed.

(** X12.  [OLLAMA_URL] is the configured value without its trailing
    slashes: it never ends with a slash, and the configured value is
    [OLLAMA_URL] followed by slashes only, so nothing else is lost. *)
Theorem OLLAMA_URL_strips_trailing_slashes (w : world) :
  (forall u : pystr, OLLAMA_URL w <> u ++ [47%N]) /\
  exists k : nat, configured_url w = OLLAMA_URL w ++ repeat 47%N k.
Proof.
  change (OLLAMA_URL w) with (rstrip_slash (configured_url w)).
  unfold rstrip_slash. split.
  - intros u H.
    apply (f_equal (@rev N)) in H. rewrite rev_involutive, rev_app_distr in H.
    cbn [rev app] in H. exact (lstrip_slash_head _ _ H).
  - destruct (lstrip_slash_run (rev (configured_url w))) as [k Hk].
    exists k. apply (f_equal (@rev N)) in Hk.
    rewrite rev_involutive, rev_app_distr, rev_repeat in Hk. exact Hk.
Qed.

(** ** The aggregator on well-formed bodies *)

(** The fragments of lines that are passed over or carry a string are the
    strings carried. *)
Lemma carried_fragments (lim : interpreter) (ls : list bytes) (fs : list pystr) :
  carried lim ls fs -> fragments lim (stream_of ls) = (map VStr fs, None).
Proof.
  induction 1 as [|l ls fs Hs _ IH|l ls f fs [s [d [Hd [Hj Hl]]]] _ IH];
    cbn [stream_of fragments map].
  - reflexivity.
  - now rewrite (skippable_fragment _ _ Hs).
  - assert (Hf : line_fragment lim l = Ok (Some (VStr f))).
    { destruct l as [|b l].
      - cbn in Hd. injection Hd as <-. discriminate Hj.
      - unfold line_fragment. rewrite Hd, Hj. cbn [py_in py_getitem].
        now rewrite Hl. }
    now rewrite Hf, IH.
Qed.



(** ** The model selector of the playground *)

Lemma js_add_options_strings (ns : list pystr) :
  js_add_options (map VStr ns) = (map VStr ns, true).
Proof.
  induction ns as [|n ns IH]; [reflexivity|].
  cbn [map js_add_options js_string_throws]. now rewrite IH.
Qed.

(** X14.  [loadModels] never leaves the selector empty: whatever the
    reply to [fetch('/models')], and also when the fetch or the parsing of
    the reply fails, the selector holds at least one option in the end. *)
Theorem loadModels_never_empty (fetched : option value) :
  exists (first : value) (others : list value),
    loadModels fetched = first :: others.
Proof.
  assert (Hopt : forall items,
             items <> [] ->
             exists first others,
               (let (options, done) := js_add_options items in
                if done then options else options ++ [VStr (str "phi3:mini")])
               = first :: others).
  { intros [|m items] Hne; [now elim Hne|]. cbn [js_add_options].
    destruct (js_string_throws m); [now eexists; eexists|].
    destruct (js_add_options items) as [options [|]]; now eexists; eexists. }
  destruct fetched as [data|]; [|now eexists; eexists].
  unfold loadModels. destruct (js_names data) as [names|]; [|now eexists; eexists].
  destruct names as [| | | |s|l|d]; cbn [js_length_is_zero js_push js_iterate];
    try (now eexists; eexists).
  - destruct s as [|c s]; cbn [js_push js_iterate]; [now eexists; eexists|].
    apply Hopt. discriminate.
  - destruct l as [|x l]; cbn [js_push js_iterate app]; apply Hopt; discriminate.
  - destruct (dict_lookup d (str "length")) as [[| |z|f| | |]|];
      try (now eexists; eexists).
    + destruct (z =? 0); now eexists; eexists.
    + destruct (PrimFloat.eqb f 0%float); now eexists; eexists.
Qed.

(** X15.  For a reply of the shape [/models] returns, with strings for
    names, the selector holds the names, in order, when there are any, and
    the single option "phi3:mini" when the list is empty.  It holds that
    single option too for a reply that is a JSON object without "names"
    (such as the error body of a 502) or with "names" [null], and when the
    fetch or the parsing of the reply fails. *)
Theorem loadModels_shows_names_or_default (ns : list pystr) (raw : value)
    (d : dict) :
  loadModels (Some (VDict [ (str "names", VList (map VStr ns)); (str "raw", raw) ]))
  = match ns with
    | [] => [VStr (str "phi3:mini")]
    | _ :: _ => map VStr ns
    end /\
  (dict_lookup d (str "names") = None \/ dict_lookup d (str "names") = Some VNone ->
   loadModels (Some (VDict d)) = [VStr (str "phi3:mini")]) /\
  loadModels None = [VStr (str "phi3:mini")].
Proof.
  split; [|split].
  - destruct ns as [|n ns]; [reflexivity|].
    change (loadModels (Some (VDict [ (str "names", VList (map VStr (n :: ns)));
                                      (str "raw", raw) ])))
      with (let (options, done) := js_add_options (map VStr (n :: ns)) in
            if done then options else options ++ [VStr (str "phi3:mini")]).
    now rewrite js_add_options_strings.
  - intros [H | H]; unfold loadModels; cbn [js_names]; rewrite H; reflexivity.
  - reflexivity.
Qed.

(** Two names, and the error body of a failed tags call. *)
Lemma loadModels_shows_names_or_default_witness :
  loadModels (Some (VDict [ (str "names", VList [VStr (str "phi3:mini"); VStr (str "llama3")]);
                            (str "raw", sample_tags) ]))
  = [VStr (str "phi3:mini"); VStr (str "llama3")] /\
  loadModels (Some (VDict [ (str "detail", VStr (str "Ollama error: refused")) ]))
  = [VStr (str "phi3:mini")].
Proof.
  split.
  - exact (proj1 (loadModels_shows_names_or_default
                    [str "phi3:mini"; str "llama3"] sample_tags [])).
  - refine (proj1 (proj2 (loadModels_shows_names_or_default [] VNone
                            [ (str "detail", VStr (str "Ollama error: refused")) ])) _).
    left. reflexivity.
Defined.

(** ** What [POST /chat] cannot ask for *)

Lemma py_or_truthy {A : Type} `{Truthy A} (x : option A) (d : A) :
  truthy d = true -> truthy (py_or x d) = true.
Proof.
  intros Hd. destruct x as [a|]; cbn [py_or]; [|exact Hd].
  destruct (truthy a) eqn:Ha; [exact Ha|exact Hd].
Qed.

